(** * Elevatr front end: the prediction workflow, shallowly embedded

    The development follows the React sources:
    - [StudentForm]: the form state, [validateForm], [handleSubmit];
    - [App], in its two revisions: the three [useState] cells,
      [handlePredict], [handleReset], the results pane;
    - [ResultCard], [RiskBadge], [FeatureChart], [RecommendationList]: the
      lookup tables and the empty guards.

    JavaScript values are modelled as far as the code inspects them:
    numbers that are compared, strings, JSON payloads, object literals read
    through the prototype chain, and exceptions as their [message]. *)

From Stdlib Require Import QArith Ascii.
From stdpp Require Import base option list strings pretty gmap.

Local Open Scope string_scope.

(** ** JavaScript numbers as the validator sees them *)
Module JsNum.

(** An IEEE double is NaN, an infinity, or a finite value; every finite
    double is a rational, and [<] and [>] on doubles are the exact
    comparisons of those rationals. *)
Inductive jsnum : Type :=
| NaN
| NegInf
| Fin (q : Q)
| PosInf.

Definition Qltb (a b : Q) : bool := negb (Qle_bool b a).

(** [x < y]; false as soon as an operand is NaN. *)
Definition lt (x y : jsnum) : bool :=
  match x, y with
  | NaN, _ | _, NaN => false
  | _, NegInf => false
  | NegInf, _ => true
  | PosInf, _ => false
  | Fin _, PosInf => true
  | Fin a, Fin b => Qltb a b
  end.

(** [x > y] is [y < x]. *)
Definition gt (x y : jsnum) : bool := lt y x.

(** [x <= y] is [x < y || x == y], also false on NaN. *)
Definition le (x y : jsnum) : bool :=
  match x, y with
  | NaN, _ | _, NaN => false
  | NegInf, _ => true
  | _, PosInf => true
  | Fin a, Fin b => Qle_bool a b
  | _, _ => false
  end.

Definition is_nan (x : jsnum) : bool :=
  match x with NaN => true | _ => false end.

(** ToBoolean: [0], [-0] and NaN are falsy. *)
Definition truthy (x : jsnum) : bool :=
  match x with
  | NaN => false
  | Fin q => negb (Qeq_bool q 0)
  | _ => true
  end.

Definition of_Z (z : Z) : jsnum := Fin (inject_Z z).

End JsNum.

Abbreviation jsnum := JsNum.jsnum.
Abbreviation NaN := JsNum.NaN.
Abbreviation Fin := JsNum.Fin.
Coercion JsNum.of_Z : Z >-> JsNum.jsnum.

(** ** StudentForm: the form and its validator *)

(** The form state ([useState] in [StudentForm]). Every numeric field is
    written by [parseInt] or [parseFloat] of an input's text, so it holds a
    JavaScript number, NaN included. *)
Record formData : Type := mkForm {
  age : jsnum;
  gender : string;
  study_hours_weekly : jsnum;
  attendance_percent : jsnum;
  previous_gpa : jsnum;
  assignments_completed : jsnum;
  participation_score : jsnum;
  midterm_score : jsnum;
  hours_on_platform : jsnum
}.

(** The initial form state. *)
Definition initialFormData : formData :=
  mkForm 20%Z "M" 20%Z 80%Z (Fin (75 # 10)) 80%Z 70%Z 75%Z 100%Z.

(** [SAMPLE_STUDENTS]. The decimals stand for the doubles nearest to them;
    the code only compares them with integers. *)
Definition SAMPLE_STUDENTS : list (string * formData) :=
  [ ("High Performer",
     mkForm 21%Z "F" 32%Z 95%Z (Fin (92 # 10)) 98%Z 90%Z 92%Z 150%Z);
    ("Average Student",
     mkForm 20%Z "M" 18%Z 78%Z (Fin (72 # 10)) 75%Z 65%Z 68%Z 85%Z);
    ("At-Risk Student",
     mkForm 19%Z "F" 8%Z 55%Z (Fin (58 # 10)) 45%Z 35%Z 42%Z 25%Z) ].

Definition age_message : string := "Age must be between 18-25".
Definition study_message : string := "Study hours must be between 5-40".
Definition gpa_message : string := "Previous GPA must be between 5.0-10.0".
Definition platform_message : string := "Platform hours must be between 10-200".

(** [validateForm]: [null] is [None]. *)
Definition validateForm (fd : formData) : option string :=
  if JsNum.lt (age fd) 18%Z || JsNum.gt (age fd) 25%Z then
    Some age_message
  else if JsNum.lt (study_hours_weekly fd) 5%Z
          || JsNum.gt (study_hours_weekly fd) 40%Z then
    Some study_message
  else if JsNum.lt (previous_gpa fd) 5%Z
          || JsNum.gt (previous_gpa fd) 10%Z then
    Some gpa_message
  else if JsNum.lt (hours_on_platform fd) 10%Z
          || JsNum.gt (hours_on_platform fd) 200%Z then
    Some platform_message
  else None.

(** *** The validator as the specification words it

    Four rules in a fixed order, each "field lies in [lo, hi]"; the message
    of the first rule that fails is returned. *)
Definition in_range (lo hi : Z) (x : jsnum) : bool :=
  JsNum.le lo x && JsNum.le x hi.

Definition validation_rules : list ((formData -> jsnum) * Z * Z * string) :=
  [ (age, 18%Z, 25%Z, age_message);
    (study_hours_weekly, 5%Z, 40%Z, study_message);
    (previous_gpa, 5%Z, 10%Z, gpa_message);
    (hours_on_platform, 10%Z, 200%Z, platform_message) ].

Fixpoint first_failing (rules : list ((formData -> jsnum) * Z * Z * string))
    (fd : formData) : option string :=
  match rules with
  | [] => None
  | (field, lo, hi, message) :: rest =>
      if in_range lo hi (field fd) then first_failing rest fd
      else Some message
  end.

Definition validate_spec (fd : formData) : option string :=
  first_failing validation_rules fd.

(** The four fields a rule reads hold proper numbers. *)
Definition checked_fields_numeric (fd : formData) : bool :=
  negb (JsNum.is_nan (age fd))
  && negb (JsNum.is_nan (study_hours_weekly fd))
  && negb (JsNum.is_nan (previous_gpa fd))
  && negb (JsNum.is_nan (hours_on_platform fd)).

(** ** JavaScript values *)

(** ToBoolean, the test behind [if (x)], [!x], [x || y] and [x ? a : b]. *)
Class ToBoolean (A : Type) : Type := truthy : A -> bool.
Global Hint Mode ToBoolean ! : typeclass_instances.

Global Instance jsnum_ToBoolean : ToBoolean jsnum := JsNum.truthy.

(** A string is falsy exactly when it is empty. *)
Global Instance string_ToBoolean : ToBoolean string :=
  fun s => match s with EmptyString => false | String _ _ => true end.

Global Instance Z_ToBoolean : ToBoolean Z := fun z => negb (z =? 0)%Z.

(** [null] is [None]. *)
Global Instance option_ToBoolean {A} `{ToBoolean A} : ToBoolean (option A) :=
  fun o => match o with Some a => truthy a | None => false end.

(** *** Object literals

    An object literal inherits from [Object.prototype], so [obj[key]] with a
    computed key finds the literal's own entry, or else the member of
    [Object.prototype] of that name, or else [undefined]. *)
Definition Object_prototype : list string :=
  [ "constructor"; "hasOwnProperty"; "isPrototypeOf"; "propertyIsEnumerable";
    "toLocaleString"; "toString"; "valueOf"; "__proto__";
    "__defineGetter__"; "__defineSetter__";
    "__lookupGetter__"; "__lookupSetter__" ].

(** What reading a property of a literal with entries of type [A] yields. *)
Inductive property (A : Type) : Type :=
| Own (a : A)
| Inherited (name : string)
| Undefined.
Arguments Own {A} a.
Arguments Inherited {A} name.
Arguments Undefined {A}.

(** The members of [Object.prototype] are functions, and [__proto__] reads as
    the prototype object itself: all truthy. *)
Global Instance property_ToBoolean {A} `{ToBoolean A} : ToBoolean (property A) :=
  fun p => match p with
           | Own a => truthy a
           | Inherited _ => true
           | Undefined => false
           end.

(** [obj[key]] *)
Definition get {A} (obj : gmap string A) (key : string) : property A :=
  match obj !! key with
  | Some a => Own a
  | None => if bool_decide (key ∈ Object_prototype) then Inherited key
            else Undefined
  end.

(** [x || y] *)
Definition js_or {A} `{ToBoolean A} (x y : A) : A :=
  if truthy x then x else y.

#[local] Set Warnings "-register-all".

(** *** JSON payloads, as [response.json()] resolves them

    The fields of an object are its own properties in the order
    [Object.entries] lists them, each name once. *)
Inductive json : Type :=
| JNull
| JBool (b : bool)
| JNum (n : jsnum)
| JStr (s : string)
| JArr (items : list json)
| JObj (fields : list (string * json)).

Global Instance json_ToBoolean : ToBoolean json :=
  fun v => match v with
           | JNull => false
           | JBool b => b
           | JNum n => truthy n
           | JStr s => truthy s
           | JArr _ | JObj _ => true
           end.

Fixpoint assoc {A} (key : string) (fields : list (string * A)) : option A :=
  match fields with
  | [] => None
  | (k, a) :: rest => if String.eqb k key then Some a else assoc key rest
  end.

(** [v.key] for a [v] other than [null] and a [key] that no prototype
    defines ([recommendations], [feature_impacts], [predicted_grade], ...):
    the own property of an object, [undefined] ([None]) otherwise. *)
Definition member (key : string) (v : json) : option json :=
  match v with
  | JObj fields => assoc key fields
  | _ => None
  end.

(** *** Exceptions

    A computation completes normally or throws; what the code reads of a
    thrown value is its [message]. *)
Inductive completion (A : Type) : Type :=
| Normal (a : A)
| Throw (message : string).
Arguments Normal {A} a.
Arguments Throw {A} message.

Global Instance completion_ret : MRet completion := @Normal.

Global Instance completion_bind : MBind completion :=
  fun A B k c => match c with
                 | Normal a => k a
                 | Throw m => Throw m
                 end.

(** ** ResultCard *)

(** [getGradeColor]; its table is the [colors] of this component. *)
Definition getGradeColor (grade : string) : property string :=
  let colors : gmap string string :=
    {[ "S" := "from-purple-500 to-pink-500";
       "A" := "from-green-500 to-emerald-500";
       "B" := "from-blue-500 to-cyan-500";
       "C" := "from-yellow-500 to-orange-500";
       "D" := "from-orange-500 to-red-500";
       "F" := "from-red-500 to-rose-500" ]} in
  js_or (get colors grade) (Own "from-gray-500 to-gray-600").

Definition descriptions : gmap string string :=
  {[ "S" := "Outstanding Performance";
     "A" := "Excellent Work";
     "B" := "Good Performance";
     "C" := "Satisfactory";
     "D" := "Needs Improvement";
     "F" := "Requires Intervention" ]}.

(** [getGradeDescription] *)
Definition getGradeDescription (grade : string) : property string :=
  js_or (get descriptions grade) (Own "Grade Predicted").

(** The six grades of the service contract. *)
Inductive Grade : Type := S_ | A_ | B_ | C_ | D_ | F_.

Definition grade_name (g : Grade) : string :=
  match g with
  | S_ => "S" | A_ => "A" | B_ => "B" | C_ => "C" | D_ => "D" | F_ => "F"
  end.

(** The description the specification lists for each grade. *)
Definition grade_description (g : Grade) : string :=
  match g with
  | S_ => "Outstanding Performance"
  | A_ => "Excellent Work"
  | B_ => "Good Performance"
  | C_ => "Satisfactory"
  | D_ => "Needs Improvement"
  | F_ => "Requires Intervention"
  end.

(** ** RiskBadge *)

(** One entry of [configs]; [icon] names the lucide-react component. *)
Record riskConfig : Type := mkRisk {
  icon : string;
  color : string;
  bg : string;
  dotColor : string;
  label : string;
  description : string
}.

(** An object is truthy. *)
Global Instance riskConfig_ToBoolean : ToBoolean riskConfig := fun _ => true.

Definition configs : gmap string riskConfig :=
  {[ "low" := mkRisk "CheckCircle" "text-green-600"
                "bg-green-50 border-green-200" "bg-green-500"
                "Low Risk" "Student is performing well";
     "medium" := mkRisk "AlertCircle" "text-yellow-600"
                   "bg-yellow-50 border-yellow-200" "bg-yellow-500"
                   "Medium Risk" "Monitor student progress";
     "high" := mkRisk "AlertTriangle" "text-red-600"
                 "bg-red-50 border-red-200" "bg-red-500"
                 "High Risk" "Intervention recommended" ]}.

(** [getRiskConfig] *)
Definition getRiskConfig (riskLevel : string) : property riskConfig :=
  js_or (get configs riskLevel) (get configs "medium").

(** ** FeatureChart *)

Record impactColor : Type := mkColor { color_bg : string; color_text : string }.

Global Instance impactColor_ToBoolean : ToBoolean impactColor := fun _ => true.

Definition colors : gmap string impactColor :=
  {[ "strong_positive" := mkColor "bg-green-500" "text-green-700";
     "positive" := mkColor "bg-green-400" "text-green-600";
     "neutral" := mkColor "bg-gray-400" "text-gray-600";
     "negative" := mkColor "bg-orange-400" "text-orange-600";
     "strong_negative" := mkColor "bg-red-500" "text-red-700" ]}.

(** [getImpactColor] *)
Definition getImpactColor (impact : string) : property impactColor :=
  js_or (get colors impact) (get colors "neutral").

Definition widths : gmap string Z :=
  {[ "strong_positive" := 100%Z;
     "positive" := 70%Z;
     "neutral" := 40%Z;
     "negative" := 70%Z;
     "strong_negative" := 100%Z ]}.

(** [getImpactWidth] *)
Definition getImpactWidth (impact : string) : property Z :=
  js_or (get widths impact) (Own 40%Z).

(** The five tags of the service contract. *)
Inductive ImpactTag : Type :=
| strong_positive | positive | neutral | negative | strong_negative.

Definition tag_name (t : ImpactTag) : string :=
  match t with
  | strong_positive => "strong_positive"
  | positive => "positive"
  | neutral => "neutral"
  | negative => "negative"
  | strong_negative => "strong_negative"
  end.

(** The bar width the specification lists for each tag. *)
Definition tag_width (t : ImpactTag) : Z :=
  match t with
  | strong_positive | strong_negative => 100%Z
  | positive | negative => 70%Z
  | neutral => 40%Z
  end.

(** What a component hands to React: the fallback card, its regular
    content, or an exception raised while rendering. *)
Inductive rendered (A : Type) : Type :=
| Fallback (text : string)
| Shown (content : A)
| Thrown.
Arguments Fallback {A} text.
Arguments Shown {A} content.
Arguments Thrown {A}.

(** [Object.keys(v).length === 0] for a [v] other than [null]: numbers and
    booleans have no own enumerable property, arrays and strings have their
    indices. *)
Definition no_keys (v : json) : bool :=
  match v with
  | JObj [] | JArr [] | JStr "" => true
  | JObj _ | JArr _ | JStr _ => false
  | _ => true
  end.

Fixpoint characters (s : string) : list json :=
  match s with
  | EmptyString => []
  | String c rest => JStr (String c EmptyString) :: characters rest
  end.

(** [Object.entries(v)] *)
Definition entries (v : json) : list (string * json) :=
  match v with
  | JObj fields => fields
  | JArr items => imap (fun i x => (pretty i, x)) items
  | JStr s => imap (fun i x => (pretty i, x)) (characters s)
  | _ => []
  end.

(** One row of the chart: the key, the tag, and what the two tables gave
    for it. [formatFeatureName] and [formatImpactLabel] only restyle the two
    texts and are left out. *)
Record bar : Type := mkBar {
  feature : string;
  impact : string;
  bar_colors : property impactColor;
  bar_width : property Z
}.

(** The callback of [Object.entries(impacts).map]: [impact.replace] in
    [formatImpactLabel] exists only on a string. *)
Definition chart_row (entry : string * json) : option bar :=
  match entry.2 with
  | JStr impact =>
      Some (mkBar entry.1 impact (getImpactColor impact) (getImpactWidth impact))
  | _ => None
  end.

(** [FeatureChart]; an absent prop is [None]. *)
Definition FeatureChart (impacts : option json) : rendered (list bar) :=
  let fallback := Fallback "No feature impact data available yet." in
  match impacts with
  | None => fallback
  | Some v =>
      if negb (truthy v) then fallback
      else if no_keys v then fallback
      else match mapM chart_row (entries v) with
           | Some bars => Shown bars
           | None => Thrown
           end
  end.

(** ** RecommendationList *)

(** [v.length === 0] for a [v] other than [null]. *)
Definition length_is_zero (v : json) : bool :=
  match v with
  | JArr [] | JStr "" => true
  | JObj fields =>
      match assoc "length" fields with
      | Some (JNum (Fin q)) => Qeq_bool q 0
      | _ => false
      end
  | _ => false
  end.

(** The callback of [recommendations.map]: [text.toLowerCase] in
    [getRecommendationIcon] exists only on a string. The icon and the colour
    class chosen from the text are styling and are left out. *)
Definition recommendation_item (rec : json) : option string :=
  match rec with
  | JStr text => Some text
  | _ => None
  end.

(** [RecommendationList]; only an array has [map]. *)
Definition RecommendationList (recommendations : option json)
  : rendered (list string) :=
  let fallback := Fallback "No recommendations available yet." in
  match recommendations with
  | None => fallback
  | Some v =>
      if negb (truthy v) then fallback
      else if length_is_zero v then fallback
      else match v with
           | JArr items =>
               match mapM recommendation_item items with
               | Some texts => Shown texts
               | None => Thrown
               end
           | _ => Thrown
           end
  end.

(** ** The page state

    The three [useState] cells of [App], the form state of [StudentForm],
    and the network as [App] uses it. [null] is [JNull] for [prediction] and
    [None] for [error]. *)
Record state : Type := mkState {
  prediction : json;
  loading : bool;
  error : option string;
  form : formData;
  requests : list formData;  (* bodies POSTed to /api/predict, latest first *)
  in_flight : nat            (* fetches whose continuation has not run yet *)
}.

Definition setPrediction (p : json) (s : state) : state :=
  mkState p (loading s) (error s) (form s) (requests s) (in_flight s).

Definition setLoading (b : bool) (s : state) : state :=
  mkState (prediction s) b (error s) (form s) (requests s) (in_flight s).

Definition setError (e : option string) (s : state) : state :=
  mkState (prediction s) (loading s) e (form s) (requests s) (in_flight s).

Definition setFormData (fd : formData) (s : state) : state :=
  mkState (prediction s) (loading s) (error s) fd (requests s) (in_flight s).

(** The state on mount. *)
Definition initial : state :=
  mkState JNull false None initialFormData [] 0.

(** ** StudentForm: the handlers *)

(** What an [onChange] passes to [handleInputChange]: the field and the
    value parsed from the control. *)
Inductive input : Type :=
| input_age (value : jsnum)
| input_gender (value : string)
| input_study_hours_weekly (value : jsnum)
| input_attendance_percent (value : jsnum)
| input_previous_gpa (value : jsnum)
| input_assignments_completed (value : jsnum)
| input_participation_score (value : jsnum)
| input_midterm_score (value : jsnum)
| input_hours_on_platform (value : jsnum).

(** [{ ...prev, [field]: value }] *)
Definition with_input (i : input) (prev : formData) : formData :=
  match i with
  | input_age v =>
      mkForm v (gender prev) (study_hours_weekly prev) (attendance_percent prev)
        (previous_gpa prev) (assignments_completed prev)
        (participation_score prev) (midterm_score prev) (hours_on_platform prev)
  | input_gender v =>
      mkForm (age prev) v (study_hours_weekly prev) (attendance_percent prev)
        (previous_gpa prev) (assignments_completed prev)
        (participation_score prev) (midterm_score prev) (hours_on_platform prev)
  | input_study_hours_weekly v =>
      mkForm (age prev) (gender prev) v (attendance_percent prev)
        (previous_gpa prev) (assignments_completed prev)
        (participation_score prev) (midterm_score prev) (hours_on_platform prev)
  | input_attendance_percent v =>
      mkForm (age prev) (gender prev) (study_hours_weekly prev) v
        (previous_gpa prev) (assignments_completed prev)
        (participation_score prev) (midterm_score prev) (hours_on_platform prev)
  | input_previous_gpa v =>
      mkForm (age prev) (gender prev) (study_hours_weekly prev)
        (attendance_percent prev) v (assignments_completed prev)
        (participation_score prev) (midterm_score prev) (hours_on_platform prev)
  | input_assignments_completed v =>
      mkForm (age prev) (gender prev) (study_hours_weekly prev)
        (attendance_percent prev) (previous_gpa prev) v
        (participation_score prev) (midterm_score prev) (hours_on_platform prev)
  | input_participation_score v =>
      mkForm (age prev) (gender prev) (study_hours_weekly prev)
        (attendance_percent prev) (previous_gpa prev)
        (assignments_completed prev) v (midterm_score prev)
        (hours_on_platform prev)
  | input_midterm_score v =>
      mkForm (age prev) (gender prev) (study_hours_weekly prev)
        (attendance_percent prev) (previous_gpa prev)
        (assignments_completed prev) (participation_score prev) v
        (hours_on_platform prev)
  | input_hours_on_platform v =>
      mkForm (age prev) (gender prev) (study_hours_weekly prev)
        (attendance_percent prev) (previous_gpa prev)
        (assignments_completed prev) (participation_score prev)
        (midterm_score prev) v
  end.

Section StudentForm.

(** The props [onSubmit] and [onError]; a caller may leave [onError] out. *)
Variable onSubmit : formData -> state -> state.
Variable onError : option (option string -> state -> state).

(** [if (onError) onError(e)] *)
Definition report (e : option string) (s : state) : state :=
  match onError with
  | Some callback => callback e s
  | None => s
  end.

Definition handleInputChange (i : input) (s : state) : state :=
  report None (setFormData (with_input i (form s)) s).

Definition loadSampleStudent (sample : string * formData) (s : state) : state :=
  report None (setFormData sample.2 s).

Definition handleSubmit (s : state) : state :=
  let validationError := validateForm (form s) in
  if truthy validationError then report validationError s
  else onSubmit (form s) s.

End StudentForm.

(** ** App

    The repository holds two revisions of [App]. Both keep the same three
    state cells and start [handlePredict] the same way. The second adds
    [handleReset], a skeleton shown while loading, and, after
    [setPrediction], a look at [result.predicted_grade] for the confetti. *)
Inductive revision : Type := rev1 | rev2.

(** The parsed body of a response that is not [ok], as far as [handlePredict]
    reads it: [null], or a value with its [error] member, a string by the
    service contract, [None] when it has none. *)
Inductive errorData : Type :=
| NullData
| Data (error_member : option string).

(** How the two awaits of [handlePredict] come out: [fetch] rejects (the
    endpoint cannot be reached), or resolves with a response whose
    [json()] yields the parsed body or rejects with a SyntaxError. *)
Inductive fetch_result : Type :=
| Rejected (message : string)
| NotOk (body : completion errorData)
| Ok (body : completion json).

(** The message of the TypeError raised by reading a property of [null],
    in the wording of V8. *)
Definition null_TypeError (name : string) : string :=
  "Cannot read properties of null (reading '" +:+ name +:+ "')".

(** [x || 'literal'] where [x] is a string, [null] or [undefined]. *)
Definition or_text (x : option string) (literal : string) : string :=
  match x with
  | Some text => if truthy text then text else literal
  | None => literal
  end.

(** [fetch(`${API_URL}/predict`, { method: 'POST', ... body })] *)
Definition fetch (body : formData) (s : state) : state :=
  mkState (prediction s) (loading s) (error s) (form s)
    (body :: requests s) (S (in_flight s)).

(** [handlePredict] up to its first [await]. *)
Definition handlePredict (fd : formData) (s : state) : state :=
  fetch fd (setError None (setLoading true s)).

(** The [try] block from the settled fetch up to [result]: the value about
    to be given to [setPrediction], or the exception on its way to the
    [catch]. [new Error(m).message] is [m]. *)
Definition response_result (r : fetch_result) : completion json :=
  match r with
  | Rejected message => Throw message
  | NotOk body =>
      data ← body;
      match data with
      | NullData => Throw (null_TypeError "error")
      | Data error_member => Throw (or_text error_member "Prediction failed")
      end
  | Ok body => result ← body; mret result
  end.

(** The [try] block after [setPrediction(result)]. The first revision ends
    there. The second tests [result.predicted_grade === 'S' || ...], which
    throws on [null]; its timers, scrolling and confetti touch no state. *)
Definition after_setPrediction (rev : revision) (result : json)
  : completion unit :=
  match rev, result with
  | rev2, JNull => Throw (null_TypeError "predicted_grade")
  | _, _ => Normal ()
  end.

(** The [catch] block; the shake of the second revision touches no state. *)
Definition catch (message : string) (s : state) : state :=
  setError (Some (or_text (Some message) "Failed to connect to API")) s.

(** The rest of [handlePredict] once the fetch has settled: [try], [catch],
    [finally]. *)
Definition handlePredict_settled (rev : revision) (r : fetch_result)
    (s : state) : state :=
  let s' :=
    match response_result r with
    | Normal result =>
        let stored := setPrediction result s in
        match after_setPrediction rev result with
        | Normal _ => stored
        | Throw message => catch message stored
        end
    | Throw message => catch message s
    end in
  let s'' := setLoading false s' in
  mkState (prediction s'') (loading s'') (error s'') (form s'')
    (requests s'') (pred (in_flight s'')).

(** [handleReset] (second revision). *)
Definition handleReset (s : state) : state :=
  setError None (setPrediction JNull s).

(** [<StudentForm onSubmit={handlePredict} onError={setError} ... />] *)
Definition submit : state -> state := handleSubmit handlePredict (Some setError).

(** *** What is on screen *)

(** The results column. *)
Inductive pane : Type :=
| Skeleton
| Results (shown : json)
| Landing.

(** First revision: [prediction ? results : landing]. Second revision:
    [loading ? skeleton : prediction ? results : landing]. *)
Definition results_pane (rev : revision) (s : state) : pane :=
  match rev with
  | rev1 => if truthy (prediction s) then Results (prediction s) else Landing
  | rev2 =>
      if loading s then Skeleton
      else if truthy (prediction s) then Results (prediction s)
      else Landing
  end.

(** [{error && <div>{error}</div>}] in the form. *)
Definition error_banner (s : state) : option string :=
  if truthy (error s) then error s else None.

(** The cards as [App] mounts them on a stored prediction. *)
Definition recommendations_card (p : json) : rendered (list string) :=
  RecommendationList (member "recommendations" p).

Definition impacts_card (p : json) : rendered (list bar) :=
  FeatureChart (member "feature_impacts" p).

(** *** Events

    React runs one handler at a time and re-renders before the next event,
    so every control is in the state its last render gave it: the inputs,
    the sample buttons and the submit button carry [disabled={loading}], and
    the reset button exists only in the results branch of the second
    revision. A disabled or absent control delivers no event. *)
Inductive event : Type :=
| Change (i : input)
| LoadSample (index : nat)
| ClickSubmit
| ClickReset
| Settled (r : fetch_result).

Definition reset_button_shown (rev : revision) (s : state) : bool :=
  match rev with
  | rev1 => false
  | rev2 => negb (loading s) && truthy (prediction s)
  end.

Definition step (rev : revision) (s : state) (e : event) : state :=
  match e with
  | Change i =>
      if loading s then s else handleInputChange (Some setError) i s
  | LoadSample index =>
      if loading s then s
      else match SAMPLE_STUDENTS !! index with
           | Some sample => loadSampleStudent (Some setError) sample s
           | None => s
           end
  | ClickSubmit => if loading s then s else submit s
  | ClickReset => if reset_button_shown rev s then handleReset s else s
  | Settled r =>
      match in_flight s with
      | O => s
      | S _ => handlePredict_settled rev r s
      end
  end.

Definition run (rev : revision) (s : state) (events : list event) : state :=
  foldl (step rev) s events.

(** On every reachable page a request is pending exactly while [loading]. *)
Definition in_flight_matches_loading (s : state) : Prop :=
  in_flight s = if loading s then 1 else 0.

(** *** Values the statements below refer to *)

(** A prop that is absent, [null], or the empty container of its kind. *)
Inductive blank (empty : json) : option json -> Prop :=
| blank_absent : blank empty None
| blank_null : blank empty (Some JNull)
| blank_empty : blank empty (Some empty).

(** The form after the user has emptied the GPA box, or the age box: the
    control reports the empty string, and [parseFloat] and [parseInt] of it
    are NaN. *)
Definition gpa_cleared : formData :=
  with_input (input_previous_gpa NaN) initialFormData.

Definition age_cleared : formData := with_input (input_age NaN) initialFormData.

(** A response of the shape the service documents. *)
Definition sample_result : json :=
  JObj [ ("predicted_grade", JStr "A");
         ("confidence", JNum (Fin (91 # 100)));
         ("risk_level", JStr "low");
         ("risk_score", JNum 12%Z);
         ("recommendations", JArr [JStr "Keep up the current study routine"]);
         ("feature_impacts",
          JObj [("study_hours_weekly", JStr "strong_positive")]) ].

(** The page after one successful prediction. *)
Definition after_success (rev : revision) : state :=
  run rev initial [ClickSubmit; Settled (Ok (Normal sample_result))].

(** Splits a membership in [Object_prototype] into its twelve names. *)
Ltac each_prototype_name H :=
  unfold Object_prototype in H;
  repeat (apply elem_of_cons in H as [->|H]);
  [ .. | by apply elem_of_nil in H ].

(** ** FeatureChart: the display names

    [formatFeatureName] and [formatImpactLabel] have the same body. Strings
    are sequences of characters; the upper-casing below is that of
    JavaScript on ASCII text, which is what feature names and impact tags
    are made of, and the statements about it assume ASCII text. *)
Definition is_ascii_char (c : ascii) : bool :=
  match c with
  | Ascii _ _ _ _ _ _ _ high => negb high
  end.

Fixpoint is_ascii (s : string) : bool :=
  match s with
  | EmptyString => true
  | String c rest => is_ascii_char c && is_ascii rest
  end.

(** [c.toUpperCase()] for one ASCII character: [a]..[z] move to [A]..[Z]. *)
Definition toUpperCase_char (c : ascii) : ascii :=
  let n := nat_of_ascii c in
  if (97 <=? n)%nat && (n <=? 122)%nat then ascii_of_nat (n - 32) else c.

(** [s.replace(/_/g, ' ')] *)
Fixpoint replace_underscores (s : string) : string :=
  match s with
  | EmptyString => EmptyString
  | String c rest =>
      String (if Ascii.eqb c "_" then " "%char else c) (replace_underscores rest)
  end.

(** [s.split(' ')]: the pieces between the spaces, empty pieces included,
    so there is always at least one. *)
Fixpoint split (s : string) : list string :=
  match s with
  | EmptyString => [EmptyString]
  | String c rest =>
      if Ascii.eqb c " " then EmptyString :: split rest
      else match split rest with
           | word :: words => String c word :: words
           | [] => [String c EmptyString]
           end
  end.

(** [words.join(' ')] *)
Fixpoint join (words : list string) : string :=
  match words with
  | [] => EmptyString
  | [word] => word
  | word :: rest => word +:+ String " " (join rest)
  end.

(** [word.charAt(0).toUpperCase() + word.slice(1)] *)
Definition capitalize (word : string) : string :=
  match word with
  | EmptyString => EmptyString
  | String c rest => String (toUpperCase_char c) rest
  end.

(** [formatFeatureName] *)
Definition formatFeatureName (name : string) : string :=
  join (capitalize <$> split (replace_underscores name)).

(** [formatImpactLabel] *)
Definition formatImpactLabel (impact : string) : string :=
  join (capitalize <$> split (replace_underscores impact)).

(** The same text written character by character: separators become
    spaces, and a character that opens a word is upper-cased. *)
Fixpoint titled (opening : bool) (s : string) : string :=
  match s with
  | EmptyString => EmptyString
  | String c rest =>
      if Ascii.eqb c "_" || Ascii.eqb c " " then String " " (titled true rest)
      else String (if opening then toUpperCase_char c else c) (titled false rest)
  end.

Fixpoint occurs (c : ascii) (s : string) : bool :=
  match s with
  | EmptyString => false
  | String c' rest => Ascii.eqb c c' || occurs c rest
  end.

(** ** Predicates the statements below use *)

(** A rule of [validateForm] lets a value through. *)
Definition passes (lo hi : Z) (x : jsnum) : bool :=
  JsNum.is_nan x || in_range lo hi x.

(** The change writes one of the five fields [validateForm] does not read. *)
Definition unchecked (i : input) : bool :=
  match i with
  | input_gender _ | input_attendance_percent _ | input_assignments_completed _
  | input_participation_score _ | input_midterm_score _ => true
  | _ => false
  end.

Definition is_text (v : json) : bool :=
  match v with JStr _ => true | _ => false end.

(** The stored error, when there is one, is not the empty string. *)
Definition error_is_visible (s : state) : Prop :=
  match error s with
  | Some message => truthy message = true
  | None => True
  end.

(** Every body sent so far had passed [validateForm]. *)
Definition requests_were_valid (s : state) : Prop :=
  Forall (fun body => validateForm body = None) (requests s).

(** While loading there is no error, and the form on screen is the body of
    the latest request. *)
Definition pending_matches_form (s : state) : Prop :=
  loading s = true -> error s = None /\ head (requests s) = Some (form s).

(** The row [FeatureChart] draws for a key and its tag. *)
Definition row_of (entry : string * string) : bar :=
  mkBar entry.1 entry.2 (getImpactColor entry.2) (getImpactWidth entry.2).

(** * Properties *)

(** ** Numbers *)

Lemma Qltb_lt a b : JsNum.Qltb a b = true <-> (a < b)%Q.
Proof.
  unfold JsNum.Qltb. rewrite negb_true_iff. split.
  - intros H. apply Qnot_le_lt. intros Hle.
    apply Qle_bool_iff in Hle. congruence.
  - intros H. destruct (Qle_bool b a) eqn:E; [|done].
    apply Qle_bool_iff in E. exfalso. exact (Qlt_not_le _ _ H E).
Qed.

(** The test of a rule, "below [lo] or above [hi]", fires exactly on the
    numbers that are neither in [lo, hi] nor NaN. *)
Lemma outside_iff (lo hi : Z) (x : jsnum) :
  JsNum.lt x lo || JsNum.gt x hi
  = negb (JsNum.is_nan x || in_range lo hi x).
Proof.
  unfold in_range, JsNum.gt.
  destruct x as [| |q|]; simpl; try done.
  unfold JsNum.Qltb. by rewrite negb_andb.
Qed.

(** On a number that is not NaN it is the negation of "in [lo, hi]". *)
Lemma outside_iff_not_in_range (lo hi : Z) (x : jsnum) :
  JsNum.is_nan x = false ->
  JsNum.lt x lo || JsNum.gt x hi = negb (in_range lo hi x).
Proof. intros Hx. by rewrite outside_iff, Hx. Qed.

(** NaN is in no range. *)
Lemma NaN_not_in_range (lo hi : Z) : in_range lo hi NaN = false.
Proof. done. Qed.

(** ** The validator *)

(** Away from NaN, [validateForm] is the validator of the specification:
    the four rules in order, the first failing rule's message. *)
Lemma validateForm_refines_spec (fd : formData) :
  checked_fields_numeric fd = true -> validateForm fd = validate_spec fd.
Proof.
  unfold checked_fields_numeric.
  rewrite !andb_true_iff, !negb_true_iff. intros [[[Ha Hs] Hg] Hp].
  unfold validateForm, validate_spec, validation_rules, first_failing.
  rewrite (outside_iff_not_in_range 18 25 _ Ha),
    (outside_iff_not_in_range 5 40 _ Hs),
    (outside_iff_not_in_range 5 10 _ Hg),
    (outside_iff_not_in_range 10 200 _ Hp).
  repeat (destruct (in_range _ _ _); simpl; try done).
Qed.

(** With the four fields in range the form is accepted. *)
Lemma validateForm_accepts_in_range (fd : formData) :
  in_range 18 25 (age fd) = true ->
  in_range 5 40 (study_hours_weekly fd) = true ->
  in_range 5 10 (previous_gpa fd) = true ->
  in_range 10 200 (hours_on_platform fd) = true ->
  validateForm fd = None.
Proof.
  intros Ha Hs Hg Hp.
  assert (Hnum : checked_fields_numeric fd = true).
  { unfold checked_fields_numeric, in_range in *.
    destruct (age fd), (study_hours_weekly fd), (previous_gpa fd),
      (hours_on_platform fd); done. }
  rewrite (validateForm_refines_spec _ Hnum).
  unfold validate_spec, validation_rules, first_failing.
  by rewrite Ha, Hs, Hg, Hp.
Qed.

(** The five other fields are never read. *)
Lemma validateForm_ignores_unchecked (fd : formData) g att asg par mid :
  validateForm
    (mkForm (age fd) g (study_hours_weekly fd) att (previous_gpa fd)
       asg par mid (hours_on_platform fd))
  = validateForm fd.
Proof. reflexivity. Qed.

(** An age below 18 or above 25 gets the age message, whatever else the
    form holds. *)
Lemma validateForm_age_outside (fd : formData) :
  JsNum.lt (age fd) 18%Z = true \/ JsNum.gt (age fd) 25%Z = true ->
  validateForm fd = Some age_message.
Proof.
  intros H. unfold validateForm.
  destruct H as [-> | ->]; [done | by rewrite orb_true_r].
Qed.

(** Every message [validateForm] returns is one of the four literals, hence
    a non-empty string. *)
Lemma validateForm_message_truthy (fd : formData) (message : string) :
  validateForm fd = Some message -> truthy message = true.
Proof.
  unfold validateForm. intros H.
  repeat match type of H with
         | (if ?c then _ else _) = _ => destruct c
         end; by simplify_eq.
Qed.

(** A checked field that holds NaN passes its rule: the form is accepted as
    soon as each of the four is NaN or in range. *)
Lemma validateForm_skips_NaN (fd : formData) :
  JsNum.is_nan (age fd) || in_range 18 25 (age fd) = true ->
  JsNum.is_nan (study_hours_weekly fd)
  || in_range 5 40 (study_hours_weekly fd) = true ->
  JsNum.is_nan (previous_gpa fd) || in_range 5 10 (previous_gpa fd) = true ->
  JsNum.is_nan (hours_on_platform fd)
  || in_range 10 200 (hours_on_platform fd) = true ->
  validateForm fd = None.
Proof.
  intros Ha Hs Hg Hp. unfold validateForm.
  by rewrite !outside_iff, Ha, Hs, Hg, Hp.
Qed.

(** C3. [validateForm] is meant to return the message of the first rule a
    field fails, the third rule being "previous_gpa in [5.0,10.0]". With
    the GPA box emptied the field is NaN: it lies in no range, so the
    validator of the specification answers with the GPA message, yet both
    comparisons of [validateForm] are false, the form is accepted, and a
    click on the submit button posts it. The same happens with the age
    box. *)
Theorem validateForm_accepts_NaN :
  (in_range 5 10 (previous_gpa gpa_cleared) = false
   /\ validate_spec gpa_cleared = Some gpa_message
   /\ validateForm gpa_cleared = None
   /\ requests
        (run rev1 initial [Change (input_previous_gpa NaN); ClickSubmit])
      = [gpa_cleared])
  /\ (in_range 18 25 (age age_cleared) = false
      /\ validate_spec age_cleared = Some age_message
      /\ validateForm age_cleared = None
      /\ requests (run rev1 initial [Change (input_age NaN); ClickSubmit])
         = [age_cleared]).
Proof. vm_compute. done. Qed.

(** ** The submit handler *)

Lemma submit_invalid (s : state) (message : string) :
  validateForm (form s) = Some message ->
  submit s = setError (Some message) s.
Proof.
  intros H. unfold submit, handleSubmit, report.
  rewrite H. simpl. unfold truthy, option_ToBoolean.
  by rewrite (validateForm_message_truthy _ _ H).
Qed.

Lemma submit_valid (s : state) :
  validateForm (form s) = None -> submit s = handlePredict (form s) s.
Proof. intros H. unfold submit, handleSubmit. by rewrite H. Qed.

(** C4. When [validateForm] rejects the form, the submit handler only hands
    the message to [setError]: the banner shows it, and a click on the
    submit button, in either revision, issues no fetch and leaves
    [prediction], [loading] and the count of pending requests as they were.
    In particular an age below 18 or above 25 is rejected with the age
    message. *)
Theorem invalid_form_is_not_submitted :
  (forall (rev : revision) (s : state) (message : string),
      validateForm (form s) = Some message ->
      submit s = setError (Some message) s
      /\ error_banner (submit s) = Some message
      /\ requests (step rev s ClickSubmit) = requests s
      /\ in_flight (step rev s ClickSubmit) = in_flight s
      /\ prediction (step rev s ClickSubmit) = prediction s
      /\ loading (step rev s ClickSubmit) = loading s)
  /\ (forall fd : formData,
         JsNum.lt (age fd) 18%Z = true \/ JsNum.gt (age fd) 25%Z = true ->
         validateForm fd = Some age_message).
Proof.
  split; [|exact validateForm_age_outside].
  intros rev s message H.
  pose proof (submit_invalid s message H) as Hs.
  pose proof (validateForm_message_truthy _ _ H) as Ht.
  split; [exact Hs|]. split.
  - rewrite Hs. unfold error_banner. simpl.
    unfold truthy at 1, option_ToBoolean. by rewrite Ht.
  - simpl. destruct (loading s) eqn:El; [done|]. by rewrite Hs.
Qed.

Lemma invalid_form_is_not_submitted_witness :
  let s := setFormData (with_input (input_age 17%Z) initialFormData)
             (after_success rev2) in
  validateForm (form s) = Some age_message
  /\ submit s = setError (Some age_message) s
  /\ requests (step rev2 s ClickSubmit) = requests s
  /\ prediction (step rev2 s ClickSubmit) = sample_result.
Proof.
  intros s.
  assert (H : validateForm (form s) = Some age_message).
  { apply (proj2 invalid_form_is_not_submitted). left. vm_compute. reflexivity. }
  destruct (proj1 invalid_form_is_not_submitted rev2 s age_message H)
    as (Hs & _ & Hr & _ & Hp & _).
  split; [exact H|]. split; [exact Hs|]. split; [exact Hr|].
  rewrite Hp. vm_compute. reflexivity.
Defined.

(** ** One request at a time *)

Lemma step_preserves_in_flight (rev : revision) (s : state) (e : event) :
  in_flight_matches_loading s -> in_flight_matches_loading (step rev s e).
Proof.
  unfold in_flight_matches_loading. intros Hs.
  destruct e as [i|index| | |r]; simpl.
  - destruct (loading s) eqn:El; [by rewrite El|]. simpl. by rewrite El.
  - destruct (loading s) eqn:El; [by rewrite El|].
    destruct (SAMPLE_STUDENTS !! index); simpl; by rewrite El.
  - destruct (loading s) eqn:El; [by rewrite El|].
    unfold submit, handleSubmit.
    destruct (truthy (validateForm (form s))); simpl.
    + by rewrite El.
    + by rewrite Hs.
  - destruct (reset_button_shown rev s); simpl; done.
  - destruct (in_flight s) as [|n] eqn:En; [by rewrite En|].
    unfold handlePredict_settled.
    destruct (loading s); [|done].
    destruct (response_result r) as [result|message]; simpl;
      [destruct (after_setPrediction rev result); simpl|];
      rewrite En; by simplify_eq.
Qed.

Lemma run_preserves_in_flight (rev : revision) (events : list event)
    (s : state) :
  in_flight_matches_loading s -> in_flight_matches_loading (run rev s events).
Proof.
  revert s. induction events as [|e events IH]; intros s Hs; [done|].
  simpl. apply IH. by apply step_preserves_in_flight.
Qed.

(** No handler but [handlePredict] adds a request, and the submit button
    reaches it only on a page that is not loading. *)
Lemma step_adds_request (rev : revision) (s : state) (e : event) :
  length (requests (step rev s e)) > length (requests s) ->
  e = ClickSubmit /\ loading s = false.
Proof.
  destruct e as [i|index| | |r]; simpl.
  - destruct (loading s); simpl; lia.
  - destruct (loading s); [lia|].
    destruct (SAMPLE_STUDENTS !! index); simpl; lia.
  - destruct (loading s); [lia|done].
  - destruct (reset_button_shown rev s); simpl; lia.
  - destruct (in_flight s); [lia|].
    unfold handlePredict_settled.
    destruct (response_result r) as [result|message]; simpl;
      [destruct (after_setPrediction rev result); simpl|]; lia.
Qed.

(** C2. While [loading] the submit button is disabled, so a click changes
    nothing: the page stays submitting and no fetch is added. Over every
    sequence of events from the mounted page, in either revision, at most
    one request is pending, and an event that adds a request is a click on
    submit on a page that is not loading and has nothing pending. *)
Theorem one_request_in_flight (rev : revision) :
  (forall s : state, loading s = true -> step rev s ClickSubmit = s)
  /\ (forall events : list event, in_flight (run rev initial events) <= 1)
  /\ (forall (events : list event) (e : event),
         length (requests (run rev initial (events ++ [e])))
         > length (requests (run rev initial events)) ->
         e = ClickSubmit
         /\ loading (run rev initial events) = false
         /\ in_flight (run rev initial events) = 0).
Proof.
  split; [|split].
  - intros s Hl. simpl. by rewrite Hl.
  - intros events.
    assert (H : in_flight_matches_loading (run rev initial events))
      by (by apply run_preserves_in_flight).
    rewrite H. destruct (loading _); lia.
  - intros events e.
    assert (H : in_flight_matches_loading (run rev initial events))
      by (by apply run_preserves_in_flight).
    unfold run in *. rewrite foldl_app. simpl.
    intros Hadd. apply step_adds_request in Hadd as [-> Hl].
    split; [done|]. split; [done|].
    unfold in_flight_matches_loading in H. by rewrite H, Hl.
Qed.

Lemma one_request_in_flight_witness :
  let s := run rev1 initial [ClickSubmit] in
  loading s = true
  /\ step rev1 s ClickSubmit = s
  /\ in_flight (run rev1 initial [ClickSubmit; ClickSubmit; ClickSubmit]) <= 1
  /\ loading (run rev1 initial []) = false.
Proof.
  intros s.
  assert (Hl : loading s = true) by (vm_compute; reflexivity).
  split; [exact Hl|].
  split; [exact (proj1 (one_request_in_flight rev1) s Hl)|].
  split; [exact (proj1 (proj2 (one_request_in_flight rev1)) _)|].
  apply (proj2 (proj2 (one_request_in_flight rev1)) [] ClickSubmit).
  vm_compute. lia.
Defined.

(** ** A submission that fails *)

(** What the [catch] block stores is never empty. *)
Lemma or_text_truthy (x : option string) (literal : string) :
  truthy literal = true -> truthy (or_text x literal) = true.
Proof.
  intros H. unfold or_text.
  destruct x as [text|]; [|done]. by destruct (truthy text) eqn:E.
Qed.

Lemma catch_message_shown (message : string) :
  truthy (Some (or_text (Some message) "Failed to connect to API")) = true.
Proof. by apply or_text_truthy. Qed.

Lemma settled_with_error (rev : revision) (r : fetch_result)
    (message : string) (s : state) :
  response_result r = Throw message ->
  handlePredict_settled rev r s
  = mkState (prediction s) false
      (Some (or_text (Some message) "Failed to connect to API"))
      (form s) (requests s) (pred (in_flight s)).
Proof. intros H. unfold handlePredict_settled. by rewrite H. Qed.

(** A body that is not [null] is stored and the error cell is left alone;
    only the second revision can still throw, and only on [null]. *)
Lemma settled_with_result (rev : revision) (r : fetch_result)
    (result : json) (s : state) :
  response_result r = Normal result ->
  rev = rev1 \/ result <> JNull ->
  handlePredict_settled rev r s
  = mkState result false (error s) (form s) (requests s) (pred (in_flight s)).
Proof.
  intros H Hrev. unfold handlePredict_settled. rewrite H.
  destruct rev; [done|]. destruct result; try done.
  by destruct Hrev.
Qed.

(** The page after one successful prediction shows that prediction and no
    error. *)
Example after_success_shows_result (rev : revision) :
  results_pane rev (after_success rev) = Results sample_result
  /\ error (after_success rev) = None
  /\ loading (after_success rev) = false.
Proof. destruct rev; vm_compute; done. Qed.

(** C1, as stated, fails. From the page showing a successful prediction, a
    second submission that the service answers with an error leaves the
    page, in either revision, with the error banner and, next to it, the
    results of the first prediction; it does not fall back to the landing
    card. *)
Lemma stale_result_next_to_error :
  let failed rev :=
    run rev (after_success rev)
      [ClickSubmit; Settled (NotOk (Normal (Data (Some "Model not loaded"))))] in
  (error_banner (failed rev1) = Some "Model not loaded"
   /\ prediction (failed rev1) = sample_result
   /\ results_pane rev1 (failed rev1) = Results sample_result
   /\ results_pane rev1 (failed rev1) <> Landing)
  /\ (error_banner (failed rev2) = Some "Model not loaded"
      /\ prediction (failed rev2) = sample_result
      /\ results_pane rev2 (failed rev2) = Results sample_result
      /\ results_pane rev2 (failed rev2) <> Landing).
Proof. vm_compute. repeat split; done. Qed.

(** C1, amended. From a page that shows a prediction, a submission whose
    request ends in an error stores the error message (the exception's
    message, or the connectivity text when that is empty) and clears
    [loading], and it leaves the stored prediction as it was: both revisions
    of the page keep showing the earlier results next to the error
    banner. *)
Theorem failed_submission_keeps_prediction
    (rev : revision) (s : state) (r : fetch_result) (message : string) :
  loading s = false ->
  truthy (prediction s) = true ->
  validateForm (form s) = None ->
  response_result r = Throw message ->
  let failed := run rev s [ClickSubmit; Settled r] in
  error failed = Some (or_text (Some message) "Failed to connect to API")
  /\ error_banner failed = error failed
  /\ loading failed = false
  /\ prediction failed = prediction s
  /\ results_pane rev failed = Results (prediction s).
Proof.
  intros Hl Hp Hv Hr. unfold run. cbn [foldl].
  assert (Hclick : step rev s ClickSubmit = handlePredict (form s) s).
  { cbn [step]. rewrite Hl. by apply submit_valid. }
  rewrite Hclick.
  change (step rev (handlePredict (form s) s) (Settled r))
    with (handlePredict_settled rev r (handlePredict (form s) s)).
  rewrite (settled_with_error _ _ _ _ Hr).
  unfold error_banner, results_pane.
  cbn [error loading prediction handlePredict fetch setError setLoading].
  rewrite Hp, catch_message_shown. by destruct rev.
Qed.

Lemma failed_submission_keeps_prediction_witness :
  let failed :=
    run rev2 (after_success rev2) [ClickSubmit; Settled (Rejected "")] in
  error failed = Some "Failed to connect to API"
  /\ results_pane rev2 failed = Results sample_result.
Proof.
  intros failed.
  destruct (failed_submission_keeps_prediction rev2 (after_success rev2)
              (Rejected "") "")
    as (He & _ & _ & _ & Hpane).
  - vm_compute. reflexivity.
  - vm_compute. reflexivity.
  - vm_compute. reflexivity.
  - reflexivity.
  - split; [exact He | exact Hpane].
Defined.

(** ** The message of a failed submission *)




(** ** Reset *)

(** C9. [handleReset] clears the stored prediction and the error on every
    page, and no render after it shows results. When the page is in its
    success or failed state, that is, not loading, the next render shows
    the landing card; the reset button is on screen on such a page as soon
    as it shows a prediction, and a click on it runs [handleReset]. *)
Theorem reset_clears_result_and_error (s : state) :
  prediction (handleReset s) = JNull
  /\ error (handleReset s) = None
  /\ error_banner (handleReset s) = None
  /\ (forall shown : json,
         results_pane rev2 (handleReset s) <> Results shown)
  /\ (loading s = false -> results_pane rev2 (handleReset s) = Landing)
  /\ (reset_button_shown rev2 s = true ->
      step rev2 s ClickReset = handleReset s).
Proof.
  repeat split; try done.
  - intros shown. unfold results_pane. simpl. by destruct (loading s).
  - intros Hl. unfold results_pane. simpl. by rewrite Hl.
  - intros H. cbn [step]. by rewrite H.
Qed.

Lemma reset_clears_result_and_error_witness :
  results_pane rev2 (after_success rev2) = Results sample_result
  /\ results_pane rev2 (handleReset (after_success rev2)) = Landing
  /\ step rev2 (after_success rev2) ClickReset
     = handleReset (after_success rev2).
Proof.
  destruct (reset_clears_result_and_error (after_success rev2))
    as (_ & _ & _ & _ & Hpane & Hclick).
  split; [vm_compute; reflexivity|].
  split; [apply Hpane | apply Hclick]; vm_compute; reflexivity.
Defined.

(** ** Lookups in a literal *)

Lemma get_own {A} (obj : gmap string A) (key : string) (a : A) :
  obj !! key = Some a -> get obj key = Own a.
Proof. intros H. unfold get. by rewrite H. Qed.

Lemma get_undefined {A} (obj : gmap string A) (key : string) :
  obj !! key = None -> key ∉ Object_prototype -> get obj key = Undefined.
Proof.
  intros H Hk. unfold get. rewrite H. by rewrite bool_decide_eq_false_2.
Qed.

Lemma get_inherited {A} (obj : gmap string A) (key : string) :
  obj !! key = None -> key ∈ Object_prototype -> get obj key = Inherited key.
Proof.
  intros H Hk. unfold get. rewrite H. by rewrite bool_decide_eq_true_2.
Qed.

(** ** The grade table *)

(** The six grades get the six descriptions. *)
Lemma getGradeDescription_grades (g : Grade) :
  getGradeDescription (grade_name g) = Own (grade_description g).
Proof. destruct g; vm_compute; reflexivity. Qed.

(** Any other string gets the fallback, unless [Object.prototype] has a
    member of that name. *)
Lemma getGradeDescription_other (grade : string) :
  (forall g : Grade, grade <> grade_name g) ->
  grade ∉ Object_prototype ->
  getGradeDescription grade = Own "Grade Predicted".
Proof.
  intros Hg Hk. unfold getGradeDescription.
  rewrite get_undefined; [done| |done].
  pose proof (Hg S_). pose proof (Hg A_). pose proof (Hg B_).
  pose proof (Hg C_). pose proof (Hg D_). pose proof (Hg F_).
  unfold descriptions. simpl in *. by simplify_map_eq.
Qed.

Lemma getGradeDescription_inherited (grade : string) :
  grade ∈ Object_prototype -> getGradeDescription grade = Inherited grade.
Proof. intros H. each_prototype_name H; vm_compute; reflexivity. Qed.

(** C6. A grade outside S, A, B, C, D, F is meant to get the description
    "Grade Predicted". The table is an object literal read with
    [descriptions[grade]], which also reaches the members of
    [Object.prototype]: for the grade "constructor" the lookup is truthy,
    the [||] keeps it, and the function returns that member, a function,
    instead of the fallback text. The same happens in [getGradeColor]. *)
Theorem getGradeDescription_constructor :
  getGradeDescription "constructor" = Inherited "constructor"
  /\ getGradeColor "constructor" = Inherited "constructor"
  /\ getGradeDescription "Z" = Own "Grade Predicted".
Proof. vm_compute. done. Qed.

(** ** The impact tables *)

Lemma getImpactWidth_tags (t : ImpactTag) :
  getImpactWidth (tag_name t) = Own (tag_width t).
Proof. destruct t; vm_compute; reflexivity. Qed.

Lemma getImpactWidth_other (impact : string) :
  (forall t : ImpactTag, impact <> tag_name t) ->
  impact ∉ Object_prototype ->
  getImpactWidth impact = Own 40%Z.
Proof.
  intros Ht Hk. unfold getImpactWidth.
  rewrite get_undefined; [done| |done].
  pose proof (Ht strong_positive). pose proof (Ht positive).
  pose proof (Ht neutral). pose proof (Ht negative).
  pose proof (Ht strong_negative).
  unfold widths. simpl in *. by simplify_map_eq.
Qed.

Lemma getImpactWidth_inherited (impact : string) :
  impact ∈ Object_prototype -> getImpactWidth impact = Inherited impact.
Proof. intros H. each_prototype_name H; vm_compute; reflexivity. Qed.

(** C7. A tag outside the five of the service is meant to get the width 40.
    [widths[impact]] also reaches the members of [Object.prototype]: for the
    tag "constructor" the function returns that member, a function, not 40,
    and the chart row is built with it. *)
Theorem getImpactWidth_constructor :
  getImpactWidth "constructor" = Inherited "constructor"
  /\ getImpactWidth "unknown_tag" = Own 40%Z
  /\ FeatureChart (Some (JObj [("attendance", JStr "constructor")]))
     = Shown [mkBar "attendance" "constructor"
                (Inherited "constructor") (Inherited "constructor")].
Proof. vm_compute. done. Qed.

(** ** The risk table *)

Lemma getRiskConfig_levels :
  getRiskConfig "low"
  = Own (mkRisk "CheckCircle" "text-green-600" "bg-green-50 border-green-200"
           "bg-green-500" "Low Risk" "Student is performing well")
  /\ getRiskConfig "medium"
     = Own (mkRisk "AlertCircle" "text-yellow-600"
              "bg-yellow-50 border-yellow-200" "bg-yellow-500"
              "Medium Risk" "Monitor student progress")
  /\ getRiskConfig "high"
     = Own (mkRisk "AlertTriangle" "text-red-600" "bg-red-50 border-red-200"
              "bg-red-500" "High Risk" "Intervention recommended").
Proof. vm_compute. done. Qed.

Lemma getRiskConfig_other (riskLevel : string) :
  riskLevel ∉ ["low"; "medium"; "high"] ->
  riskLevel ∉ Object_prototype ->
  getRiskConfig riskLevel = getRiskConfig "medium".
Proof.
  intros Hl Hk. unfold getRiskConfig at 1.
  rewrite (get_undefined configs riskLevel); [by vm_compute| |done].
  rewrite !not_elem_of_cons in Hl. destruct Hl as (? & ? & ? & _).
  unfold configs. by simplify_map_eq.
Qed.

Lemma getRiskConfig_inherited (riskLevel : string) :
  riskLevel ∈ Object_prototype -> getRiskConfig riskLevel = Inherited riskLevel.
Proof. intros H. each_prototype_name H; vm_compute; reflexivity. Qed.

(** C8. A risk level outside low, medium, high is meant to get the
    configuration of medium. [configs[riskLevel]] also reaches the members
    of [Object.prototype]: for the level "constructor" the function returns
    that member, a function, which is not the medium configuration and has
    neither icon nor label. *)
Theorem getRiskConfig_constructor :
  getRiskConfig "constructor" = Inherited "constructor"
  /\ getRiskConfig "medium"
     = Own (mkRisk "AlertCircle" "text-yellow-600"
              "bg-yellow-50 border-yellow-200" "bg-yellow-500"
              "Medium Risk" "Monitor student progress")
  /\ getRiskConfig "unknown" = getRiskConfig "medium".
Proof. vm_compute. done. Qed.

(** ** The empty guards *)

(** C10. On a stored prediction whose [recommendations] is absent, [null]
    or the empty array, the recommendation card renders its fallback, and on
    one whose [feature_impacts] is absent, [null] or the empty object, the
    chart card renders its fallback: neither the list nor the chart, and no
    exception. *)
Theorem cards_fall_back_on_blank (p : json) :
  (blank (JArr []) (member "recommendations" p) ->
   recommendations_card p = Fallback "No recommendations available yet.")
  /\ (blank (JObj []) (member "feature_impacts" p) ->
      impacts_card p = Fallback "No feature impact data available yet.").
Proof.
  unfold recommendations_card, impacts_card.
  split; intros H; inversion H; reflexivity.
Qed.

Lemma cards_fall_back_on_blank_witness :
  let p := JObj [ ("predicted_grade", JStr "B");
                  ("recommendations", JArr []);
                  ("feature_impacts", JNull) ] in
  recommendations_card p = Fallback "No recommendations available yet."
  /\ impacts_card p = Fallback "No feature impact data available yet.".
Proof.
  intros p. destruct (cards_fall_back_on_blank p) as [Hrec Himp].
  split; [apply Hrec | apply Himp].
  - vm_compute. apply blank_empty.
  - vm_compute. apply blank_null.
Defined.

(** The guards are what keeps the cards from throwing: past them, content
    of the wrong shape raises. *)
Example cards_throw_past_the_guard :
  RecommendationList (Some (JObj [])) = Thrown
  /\ RecommendationList (Some (JArr [JNull])) = Thrown
  /\ FeatureChart (Some (JObj [("attendance", JNull)])) = Thrown.
Proof. vm_compute. done. Qed.

(** An array in place of the map is charted under its indices. *)
Example chart_of_an_array :
  FeatureChart (Some (JArr [JStr "positive"; JStr "neutral"]))
  = Shown [ mkBar "0" "positive"
              (Own (mkColor "bg-green-400" "text-green-600")) (Own 70%Z);
            mkBar "1" "neutral"
              (Own (mkColor "bg-gray-400" "text-gray-600")) (Own 40%Z) ].
Proof. vm_compute. done. Qed.

(** ** Walk-throughs *)

(** The first sample passes the validator, the documented response is
    stored and shown, and its fields classify to "Excellent Work" and a
    full-width bar. *)
Example walkthrough_success :
  validateForm (mkForm 21%Z "F" 32%Z 95%Z (Fin (92 # 10)) 98%Z 90%Z 92%Z 150%Z)
  = None
  /\ results_pane rev1 (after_success rev1) = Results sample_result
  /\ getGradeDescription "A" = Own "Excellent Work"
  /\ recommendations_card sample_result
     = Shown ["Keep up the current study routine"]
  /\ impacts_card sample_result
     = Shown [mkBar "study_hours_weekly" "strong_positive"
                (Own (mkColor "bg-green-500" "text-green-700")) (Own 100%Z)].
Proof. vm_compute. done. Qed.

(** An age of 17 is refused before any request. *)
Example walkthrough_rejected :
  let s := run rev1 initial [Change (input_age 17%Z); ClickSubmit] in
  error_banner s = Some age_message /\ requests s = [] /\ loading s = false.
Proof. vm_compute. done. Qed.

(** In the second revision a response [null] with status 200 is stored and
    then trips the confetti test: the page ends with no prediction and the
    TypeError in the banner. *)
Example null_result_second_revision :
  let s := run rev2 initial [ClickSubmit; Settled (Ok (Normal JNull))] in
  prediction s = JNull
  /\ error s = Some (null_TypeError "predicted_grade")
  /\ results_pane rev2 s = Landing.
Proof. vm_compute. done. Qed.

Example formatFeatureName_sample :
  formatFeatureName "study_hours_weekly" = "Study Hours Weekly"
  /\ formatFeatureName "" = ""
  /\ formatFeatureName "_a__b_" = " A  B "
  /\ formatImpactLabel "strong_positive" = "Strong Positive"
  /\ split " a  b " = [""; "a"; ""; "b"; ""].
Proof. vm_compute. done. Qed.

(** * Further properties *)

(** ** The validator, rule by rule *)

Lemma passes_iff_not_outside (lo hi : Z) (x : jsnum) :
  passes lo hi x = negb (JsNum.lt x lo || JsNum.gt x hi).
Proof. unfold passes. by rewrite outside_iff, negb_involutive. Qed.

(** X1. [validateForm] accepts a form exactly when each of the four fields
    it reads is in its range or NaN, and otherwise returns the message of
    the first field, in the order age, study hours, GPA, platform hours,
    that is neither. *)
Theorem validateForm_verdict (fd : formData) :
  let a := passes 18 25 (age fd) in
  let h := passes 5 40 (study_hours_weekly fd) in
  let g := passes 5 10 (previous_gpa fd) in
  let p := passes 10 200 (hours_on_platform fd) in
  (validateForm fd = None <-> a && h && g && p = true)
  /\ (validateForm fd = Some age_message <-> a = false)
  /\ (validateForm fd = Some study_message <-> a && negb h = true)
  /\ (validateForm fd = Some gpa_message <-> a && h && negb g = true)
  /\ (validateForm fd = Some platform_message
      <-> a && h && g && negb p = true).
Proof.
  simpl. unfold validateForm. rewrite !passes_iff_not_outside.
  destruct (JsNum.lt (age fd) 18%Z || JsNum.gt (age fd) 25%Z);
    destruct (JsNum.lt (study_hours_weekly fd) 5%Z
              || JsNum.gt (study_hours_weekly fd) 40%Z);
    destruct (JsNum.lt (previous_gpa fd) 5%Z
              || JsNum.gt (previous_gpa fd) 10%Z);
    destruct (JsNum.lt (hours_on_platform fd) 10%Z
              || JsNum.gt (hours_on_platform fd) 200%Z);
    simpl; repeat split; intros H; try done; by inversion H.
Qed.

Lemma validateForm_verdict_witness :
  validateForm (mkForm 30%Z "F" 2%Z 0%Z NaN 0%Z 0%Z 0%Z 500%Z)
  = Some age_message
  /\ validateForm (mkForm NaN "F" 2%Z 0%Z NaN 0%Z 0%Z 0%Z 500%Z)
     = Some study_message.
Proof.
  split.
  - apply (proj1 (proj2 (validateForm_verdict _))). vm_compute. reflexivity.
  - apply (proj1 (proj2 (proj2 (validateForm_verdict _)))).
    vm_compute. reflexivity.
Defined.

(** X2. A change to gender, attendance, assignments, participation or
    midterm score never changes what [validateForm] answers: it can neither
    cause nor cure a validation error. *)
Theorem unchecked_change_keeps_verdict (i : input) (fd : formData) :
  unchecked i = true -> validateForm (with_input i fd) = validateForm fd.
Proof. destruct i; intros H; try discriminate H; reflexivity. Qed.

Lemma unchecked_change_keeps_verdict_witness :
  validateForm (with_input (input_attendance_percent NaN) age_cleared)
  = validateForm age_cleared.
Proof. apply unchecked_change_keeps_verdict. reflexivity. Defined.

(** ** Invariants of the page *)

Lemma run_invariant (rev : revision) (P : state -> Prop) :
  (forall s e, P s -> P (step rev s e)) ->
  forall events s, P s -> P (run rev s events).
Proof.
  intros Hstep events. induction events as [|e events IH]; intros s Hs.
  - exact Hs.
  - simpl. apply IH, Hstep, Hs.
Qed.

Lemma submit_cases (s : state) :
  (exists message, validateForm (form s) = Some message
                   /\ truthy message = true
                   /\ submit s = setError (Some message) s)
  \/ (validateForm (form s) = None /\ submit s = handlePredict (form s) s).
Proof.
  destruct (validateForm (form s)) as [message|] eqn:E.
  - left. exists message. split; [done|]. split.
    + by eapply validateForm_message_truthy.
    + by apply submit_invalid.
  - right. split; [done|]. by apply submit_valid.
Qed.

Lemma settled_cases (rev : revision) (r : fetch_result) (s : state) :
  (exists result,
      response_result r = Normal result
      /\ after_setPrediction rev result = Normal ()
      /\ handlePredict_settled rev r s
         = mkState result false (error s) (form s) (requests s)
             (pred (in_flight s)))
  \/ (exists p message,
         truthy message = true
         /\ (p = prediction s \/ response_result r = Normal p)
         /\ handlePredict_settled rev r s
            = mkState p false (Some message) (form s) (requests s)
                (pred (in_flight s))).
Proof.
  unfold handlePredict_settled.
  destruct (response_result r) as [result|message] eqn:Er.
  - destruct (after_setPrediction rev result) as [[]|message] eqn:Ea.
    + left. by exists result.
    + right. eexists result, _. split; [|split; [by right|reflexivity]].
      by apply or_text_truthy.
  - right. eexists (prediction s), _. split; [|split; [by left|reflexivity]].
    by apply or_text_truthy.
Qed.

Lemma step_keeps_requests_valid (rev : revision) (s : state) (e : event) :
  requests_were_valid s -> requests_were_valid (step rev s e).
Proof.
  unfold requests_were_valid. intros Hs.
  destruct e as [i|index| | |r]; simpl.
  - by destruct (loading s).
  - destruct (loading s); [done|]. by destruct (SAMPLE_STUDENTS !! index).
  - destruct (loading s); [done|].
    destruct (submit_cases s) as [(m & _ & _ & ->)|[Hv ->]]; [done|].
    simpl. by constructor.
  - by destruct (reset_button_shown rev s).
  - destruct (in_flight s); [done|].
    by destruct (settled_cases rev r s)
      as [(? & _ & _ & ->)|(? & ? & _ & _ & ->)].
Qed.

Lemma step_keeps_error_visible (rev : revision) (s : state) (e : event) :
  error_is_visible s -> error_is_visible (step rev s e).
Proof.
  unfold error_is_visible. intros Hs.
  destruct e as [i|index| | |r]; simpl.
  - by destruct (loading s).
  - destruct (loading s); [done|]. by destruct (SAMPLE_STUDENTS !! index).
  - destruct (loading s); [done|].
    by destruct (submit_cases s) as [(m & _ & Hm & ->)|[Hv ->]].
  - by destruct (reset_button_shown rev s).
  - destruct (in_flight s); [done|].
    by destruct (settled_cases rev r s)
      as [(? & _ & _ & ->)|(? & ? & Hm & _ & ->)].
Qed.

Lemma step_keeps_pending_form (rev : revision) (s : state) (e : event) :
  pending_matches_form s -> pending_matches_form (step rev s e).
Proof.
  unfold pending_matches_form. intros Hs.
  destruct e as [i|index| | |r]; simpl.
  - destruct (loading s) eqn:El; [intros _; by apply Hs|].
    simpl. by rewrite El.
  - destruct (loading s) eqn:El; [intros _; by apply Hs|].
    destruct (SAMPLE_STUDENTS !! index); simpl; by rewrite El.
  - destruct (loading s) eqn:El; [intros _; by apply Hs|].
    destruct (submit_cases s) as [(m & _ & _ & ->)|[Hv ->]]; simpl.
    + by rewrite El.
    + done.
  - unfold reset_button_shown.
    destruct rev; [done|]. destruct (loading s) eqn:El; simpl.
    + intros _. by apply Hs.
    + destruct (truthy (prediction s)); simpl; by rewrite ?El.
  - destruct (in_flight s); [done|].
    by destruct (settled_cases rev r s)
      as [(? & _ & _ & ->)|(? & ? & _ & _ & ->)].
Qed.

(** X3. Over every sequence of events from the mounted page, in either
    revision, every body that was sent had passed [validateForm]: no
    rejected form ever reaches the network. *)
Theorem only_valid_forms_are_sent (rev : revision) (events : list event) :
  Forall (fun body => validateForm body = None)
    (requests (run rev initial events)).
Proof.
  apply (run_invariant rev requests_were_valid).
  - apply step_keeps_requests_valid.
  - constructor.
Qed.

(** X4. Over every sequence of events from the mounted page, the stored
    error is never the empty string, so the banner shows an error exactly
    when one is stored, and shows it unchanged. *)
Theorem stored_error_is_shown (rev : revision) (events : list event) :
  error_banner (run rev initial events) = error (run rev initial events).
Proof.
  assert (H : error_is_visible (run rev initial events)).
  { apply (run_invariant rev error_is_visible); [|done].
    apply step_keeps_error_visible. }
  unfold error_is_visible in H. unfold error_banner.
  destruct (error (run rev initial events)) as [message|]; [|done].
  unfold truthy, option_ToBoolean. by rewrite H.
Qed.

(** X5. Over every sequence of events from the mounted page, while the
    page is loading no error is stored and the form on screen is the body
    of the latest request: a profile cannot be edited once it is sent. *)
Theorem pending_request_is_the_form (rev : revision) (events : list event) :
  loading (run rev initial events) = true ->
  error (run rev initial events) = None
  /\ head (requests (run rev initial events))
     = Some (form (run rev initial events)).
Proof.
  apply (run_invariant rev pending_matches_form); [|done].
  apply step_keeps_pending_form.
Qed.

Lemma pending_request_is_the_form_witness :
  let s := run rev2 initial
             [Change (input_age 22%Z); ClickSubmit; Change (input_age 17%Z)] in
  error s = None /\ head (requests s) = Some (form s).
Proof.
  intros s. apply pending_request_is_the_form. vm_compute. reflexivity.
Defined.

(** ** Submissions from start to end *)

Lemma submit_then_settle (rev : revision) (s : state) (r : fetch_result) :
  loading s = false ->
  validateForm (form s) = None ->
  run rev s [ClickSubmit; Settled r]
  = handlePredict_settled rev r (handlePredict (form s) s).
Proof.
  intros Hl Hv. unfold run. cbn [foldl].
  assert (Hclick : step rev s ClickSubmit = handlePredict (form s) s).
  { cbn [step]. rewrite Hl. by apply submit_valid. }
  by rewrite Hclick.
Qed.

(** X6. From a page that is not loading and holds a valid form, a
    submission answered by an [ok] response with a parsed body stores that
    body as the prediction, whatever was stored before, leaves no error
    even if one was shown, and ends loading; the body sent is the form. The
    render that follows takes the landing branch exactly when the stored
    body is falsy; on a truthy body it mounts the cards, and what those do
    with the body is theirs. In the second revision this needs a body
    other than [null]. *)
Theorem successful_submission_stores_result
    (rev : revision) (s : state) (result : json) :
  loading s = false ->
  validateForm (form s) = None ->
  rev = rev1 \/ result <> JNull ->
  let done_ := run rev s [ClickSubmit; Settled (Ok (Normal result))] in
  prediction done_ = result
  /\ error done_ = None
  /\ error_banner done_ = None
  /\ loading done_ = false
  /\ requests done_ = form s :: requests s
  /\ in_flight done_ = in_flight s
  /\ (results_pane rev done_ = Landing <-> truthy result = false).
Proof.
  intros Hl Hv Hrev done_. subst done_.
  rewrite (submit_then_settle _ _ _ Hl Hv).
  rewrite (settled_with_result rev _ result); [|done|done].
  simpl. repeat split; try done.
  - destruct rev; simpl; by destruct (truthy result).
  - intros Hfalsy. destruct rev; simpl; by rewrite Hfalsy.
Qed.

Lemma successful_submission_stores_result_witness :
  let failed :=
    run rev2 initial [ClickSubmit; Settled (Rejected "Failed to fetch")] in
  let done_ := run rev2 failed [ClickSubmit; Settled (Ok (Normal sample_result))] in
  error failed = Some "Failed to fetch"
  /\ prediction done_ = sample_result
  /\ error done_ = None.
Proof.
  intros failed done_.
  destruct (successful_submission_stores_result rev2 failed sample_result)
    as (Hp & He & _).
  - vm_compute. reflexivity.
  - vm_compute. reflexivity.
  - right. discriminate.
  - split; [vm_compute; reflexivity|]. split; [exact Hp | exact He].
Defined.

(** X7. From a page that is not loading and holds a valid form, a
    submission ends loading however the fetch settles, with as many
    requests pending as before. It ends without a stored error only when
    the response was parsed and its body is now the stored prediction: no
    failure of the request passes silently. *)
Theorem no_outcome_is_swallowed
    (rev : revision) (s : state) (r : fetch_result) :
  loading s = false ->
  validateForm (form s) = None ->
  let done_ := run rev s [ClickSubmit; Settled r] in
  loading done_ = false
  /\ in_flight done_ = in_flight s
  /\ form done_ = form s
  /\ (error done_ = None ->
      response_result r = Normal (prediction done_))
  /\ (forall message, response_result r = Throw message ->
      prediction done_ = prediction s /\ truthy (error done_) = true).
Proof.
  intros Hl Hv done_. subst done_.
  rewrite (submit_then_settle _ _ _ Hl Hv).
  destruct (settled_cases rev r (handlePredict (form s) s))
    as [(result & Hr & _ & ->)|(p & m & Hm & Hp & ->)]; simpl.
  - repeat split; try done; intros; congruence.
  - repeat split; try done; intros;
      destruct Hp as [->|Hp]; done || congruence.
Qed.

Lemma no_outcome_is_swallowed_witness :
  let done_ := run rev1 initial [ClickSubmit; Settled (NotOk (Normal NullData))] in
  loading done_ = false /\ truthy (error done_) = true.
Proof.
  intros done_.
  destruct (no_outcome_is_swallowed rev1 initial (NotOk (Normal NullData)))
    as (Hl & _ & _ & _ & Herr).
  - reflexivity.
  - vm_compute. reflexivity.
  - split; [exact Hl|]. exact (proj2 (Herr _ eq_refl)).
Defined.

(** X8. Over every sequence of events from the mounted page of the second
    revision: when the reset button is on screen no request is pending, and
    after a click on it the page shows the landing card with no error, and
    no response that settles later can bring a result or an error back. *)
Theorem reset_is_final (events : list event) (r : fetch_result) :
  let s := run rev2 initial events in
  reset_button_shown rev2 s = true ->
  in_flight s = 0
  /\ results_pane rev2 (step rev2 s ClickReset) = Landing
  /\ error_banner (step rev2 s ClickReset) = None
  /\ step rev2 (step rev2 s ClickReset) (Settled r) = step rev2 s ClickReset.
Proof.
  intros s Hshown.
  assert (Hin : in_flight_matches_loading s)
    by (by apply run_preserves_in_flight).
  unfold in_flight_matches_loading in Hin.
  cbn [step]. rewrite Hshown.
  unfold reset_button_shown in Hshown.
  apply andb_true_iff in Hshown as [Hl _]. apply negb_true_iff in Hl.
  rewrite Hl in Hin. split; [done|].
  unfold results_pane, error_banner. simpl. by rewrite Hl, Hin.
Qed.

Lemma reset_is_final_witness :
  let s := run rev2 initial [ClickSubmit; Settled (Ok (Normal sample_result))] in
  step rev2 (step rev2 s ClickReset) (Settled (Ok (Normal sample_result)))
  = step rev2 s ClickReset.
Proof.
  intros s.
  apply (reset_is_final [ClickSubmit; Settled (Ok (Normal sample_result))]).
  vm_compute. reflexivity.
Defined.

(** X9. After a click on submit that [validateForm] rejected, a change
    that makes the form valid followed by another click sends exactly that
    corrected form: the validation message is gone, the page is loading,
    and the stored prediction is untouched. *)
Theorem rejected_form_can_be_corrected
    (rev : revision) (s : state) (i : input) (message : string) :
  loading s = false ->
  validateForm (form s) = Some message ->
  validateForm (with_input i (form s)) = None ->
  let s' := run rev s [ClickSubmit; Change i; ClickSubmit] in
  requests s' = with_input i (form s) :: requests s
  /\ form s' = with_input i (form s)
  /\ loading s' = true
  /\ error s' = None
  /\ prediction s' = prediction s.
Proof.
  intros Hl Hbad Hgood. unfold run. cbn [foldl].
  assert (H1 : step rev s ClickSubmit = setError (Some message) s).
  { cbn [step]. rewrite Hl. by apply submit_invalid. }
  rewrite H1. cbn [step loading setError]. rewrite Hl.
  unfold handleInputChange, report. cbn [loading setError setFormData].
  rewrite Hl. rewrite submit_valid by done. done.
Qed.

Lemma rejected_form_can_be_corrected_witness :
  let s := run rev1 initial [Change (input_age 17%Z)] in
  let s' := run rev1 s [ClickSubmit; Change (input_age 18%Z); ClickSubmit] in
  requests s' = [with_input (input_age 18%Z) (form s)] /\ error s' = None.
Proof.
  intros s s'.
  destruct (rejected_form_can_be_corrected rev1 s (input_age 18%Z) age_message)
    as (Hr & _ & _ & He & _).
  - reflexivity.
  - vm_compute. reflexivity.
  - vm_compute. reflexivity.
  - split; [exact Hr | exact He].
Defined.

(** X10. Each of the sample students passes [validateForm]: on a page that
    is not loading, choosing a sample and clicking submit sends that
    sample's data, with no error stored. *)
Theorem samples_are_submitted
    (rev : revision) (s : state) (index : nat) (sample : string * formData) :
  loading s = false ->
  SAMPLE_STUDENTS !! index = Some sample ->
  let s' := run rev s [LoadSample index; ClickSubmit] in
  validateForm sample.2 = None
  /\ requests s' = sample.2 :: requests s
  /\ form s' = sample.2
  /\ loading s' = true
  /\ error s' = None.
Proof.
  intros Hl Hsample.
  assert (Hv : validateForm sample.2 = None).
  { destruct index as [|[|[|index]]]; simpl in Hsample;
      inversion Hsample; subst; vm_compute; reflexivity. }
  unfold run. cbn [foldl step]. rewrite Hl, Hsample.
  unfold loadSampleStudent, report. cbn [loading setError setFormData].
  rewrite Hl. rewrite submit_valid by done. done.
Qed.

Lemma samples_are_submitted_witness :
  requests (run rev1 initial
              [LoadSample 2; ClickSubmit])
  = [(mkForm 19%Z "F" 8%Z 55%Z (Fin (58 # 10)) 45%Z 35%Z 42%Z 25%Z)].
Proof.
  destruct (samples_are_submitted rev1 initial 2
              ("At-Risk Student",
               mkForm 19%Z "F" 8%Z 55%Z (Fin (58 # 10)) 45%Z 35%Z 42%Z 25%Z))
    as (_ & Hr & _).
  - reflexivity.
  - reflexivity.
  - exact Hr.
Defined.

Lemma response_result_Normal (r : fetch_result) (result : json) :
  response_result r = Normal result -> r = Ok (Normal result).
Proof.
  destruct r as [m|[[|e]|m]|[v|m]]; simpl; intros H; try discriminate H.
  by inversion H.
Qed.

(** X11. Over every sequence of events from the mounted page, the stored
    prediction is [null] or the parsed body of an [ok] response that
    settled during the sequence: nothing else ever gets on the results
    pane. *)
Theorem prediction_comes_from_a_response
    (rev : revision) (events : list event) :
  prediction (run rev initial events) = JNull
  \/ Settled (Ok (Normal (prediction (run rev initial events)))) ∈ events.
Proof.
  induction events as [|e events IH] using rev_ind; [by left|].
  unfold run in *. rewrite foldl_app. cbn [foldl].
  set (s := foldl (step rev) initial events) in *.
  assert (Hkeep : prediction (step rev s e) = prediction s ->
                  prediction (step rev s e) = JNull
                  \/ Settled (Ok (Normal (prediction (step rev s e))))
                     ∈ (events ++ [e])%list).
  { intros ->. destruct IH as [IH|IH]; [by left|right].
    apply elem_of_app. by left. }
  destruct e as [i|index| | |r]; cbn [step] in *.
  - apply Hkeep. by destruct (loading s).
  - apply Hkeep. destruct (loading s); [done|].
    by destruct (SAMPLE_STUDENTS !! index).
  - apply Hkeep. destruct (loading s); [done|].
    by destruct (submit_cases s) as [(m & _ & _ & ->)|[_ ->]].
  - destruct (reset_button_shown rev s); [by left|by apply Hkeep].
  - destruct (in_flight s); [by apply Hkeep|].
    destruct (settled_cases rev r s)
      as [(result & Hr & _ & Hs)|(p & m & _ & [->|Hr] & Hs)];
      rewrite Hs in *; cbn [prediction] in *.
    + right. apply elem_of_app. right.
      rewrite (response_result_Normal _ _ Hr). by apply list_elem_of_singleton.
    + by apply Hkeep.
    + right. apply elem_of_app. right.
      rewrite (response_result_Normal _ _ Hr). by apply list_elem_of_singleton.
Qed.

(** ** The lookup tables *)

Lemma js_or_truthy {A} `{ToBoolean A} (x y : A) :
  truthy y = true -> truthy (js_or x y) = true.
Proof. intros Hy. unfold js_or. by destruct (truthy x) eqn:E. Qed.

(** X12. For every key, each of the five table lookups yields a truthy
    value, an entry of the table or a member of [Object.prototype], and
    never [undefined]: reading a field of what [getRiskConfig] or
    [getImpactColor] returned cannot fail on [undefined]. *)
Theorem lookups_are_never_undefined (key : string) :
  truthy (getGradeColor key) = true
  /\ truthy (getGradeDescription key) = true
  /\ truthy (getRiskConfig key) = true
  /\ truthy (getImpactColor key) = true
  /\ truthy (getImpactWidth key) = true.
Proof. repeat split; by apply js_or_truthy. Qed.

(** X13. Whatever the tag, a width that [getImpactWidth] takes from its
    table or its default is 40, 70 or 100: a bar never exceeds its track. *)
Theorem impact_width_is_bounded (impact_tag : string) (w : Z) :
  getImpactWidth impact_tag = Own w -> w = 40%Z \/ w = 70%Z \/ w = 100%Z.
Proof.
  unfold getImpactWidth, js_or, get.
  destruct (widths !! impact_tag) as [w'|] eqn:E.
  - assert (Hw : w' = 40%Z \/ w' = 70%Z \/ w' = 100%Z).
    { unfold widths in E.
      repeat (apply lookup_insert_Some in E as [[_ <-]|[_ E]]; [by eauto|]).
      apply lookup_singleton_Some in E as [_ <-]. by eauto. }
    destruct (truthy (Own w')); intros H; inversion H; subst; eauto.
  - destruct (bool_decide (impact_tag ∈ Object_prototype)); simpl;
      intros H; inversion H; eauto.
Qed.

Lemma impact_width_is_bounded_witness :
  exists w, getImpactWidth "negative" = Own w
            /\ (w = 40%Z \/ w = 70%Z \/ w = 100%Z).
Proof.
  exists 70%Z. split; [vm_compute; reflexivity|].
  apply (impact_width_is_bounded "negative"). vm_compute. reflexivity.
Defined.

(** X14. A tag that is none of the five known ones and names no member of
    [Object.prototype] is drawn exactly like "neutral": the same colours
    and the same width. *)
Theorem unknown_impact_is_neutral (impact_tag : string) :
  (forall t : ImpactTag, impact_tag <> tag_name t) ->
  impact_tag ∉ Object_prototype ->
  getImpactColor impact_tag = getImpactColor "neutral"
  /\ getImpactWidth impact_tag = getImpactWidth "neutral"
  /\ getImpactColor impact_tag = Own (mkColor "bg-gray-400" "text-gray-600").
Proof.
  intros Ht Hk.
  pose proof (Ht strong_positive). pose proof (Ht positive).
  pose proof (Ht neutral). pose proof (Ht negative).
  pose proof (Ht strong_negative). simpl in *.
  assert (Hc : get colors impact_tag = Undefined).
  { apply get_undefined; [|done]. unfold colors. by simplify_map_eq. }
  assert (Hw : get widths impact_tag = Undefined).
  { apply get_undefined; [|done]. unfold widths. by simplify_map_eq. }
  unfold getImpactColor at 1 3, getImpactWidth at 1. rewrite Hc, Hw.
  by vm_compute.
Qed.

Lemma unknown_impact_is_neutral_witness :
  getImpactColor "unknown_tag" = getImpactColor "neutral"
  /\ getImpactWidth "unknown_tag" = getImpactWidth "neutral".
Proof.
  destruct (unknown_impact_is_neutral "unknown_tag") as (Hc & Hw & _).
  - by intros [].
  - unfold Object_prototype. rewrite !not_elem_of_cons.
    repeat split; try done. apply not_elem_of_nil.
  - split; [exact Hc | exact Hw].
Defined.

(** X15. [getGradeColor] gives each of the six grades a gradient of its
    own, none of them the gray one, and gives the gray one to every string
    that is neither a grade nor the name of a member of
    [Object.prototype]. *)
Theorem grade_gradients (grade : string) :
  (forall g1 g2 : Grade,
      getGradeColor (grade_name g1) = getGradeColor (grade_name g2) -> g1 = g2)
  /\ (forall g : Grade,
         getGradeColor (grade_name g) <> Own "from-gray-500 to-gray-600"
         /\ truthy (getGradeColor (grade_name g)) = true)
  /\ ((forall g : Grade, grade <> grade_name g) ->
      grade ∉ Object_prototype ->
      getGradeColor grade = Own "from-gray-500 to-gray-600").
Proof.
  split; [|split].
  - intros [] []; vm_compute; intros H; done || discriminate H.
  - intros []; vm_compute; split; done.
  - intros Hg Hk.
    pose proof (Hg S_). pose proof (Hg A_). pose proof (Hg B_).
    pose proof (Hg C_). pose proof (Hg D_). pose proof (Hg F_). simpl in *.
    unfold getGradeColor. cbv zeta.
    rewrite get_undefined; [done| |done]. by simplify_map_eq.
Qed.

Lemma grade_gradients_witness :
  getGradeColor "Z" = Own "from-gray-500 to-gray-600".
Proof.
  apply (proj2 (proj2 (grade_gradients "Z"))).
  - by intros [].
  - unfold Object_prototype. rewrite !not_elem_of_cons.
    repeat split; try done. apply not_elem_of_nil.
Defined.

(** ** What the cards show *)

Lemma chart_rows_of_texts (rows : list (string * string)) :
  mapM chart_row (prod_map id JStr <$> rows) = Some (row_of <$> rows).
Proof.
  apply mapM_Some_2.
  induction rows as [|[k tag] rows IH]; simpl; by constructor.
Qed.

Lemma chart_row_None (entry : string * json) :
  chart_row entry = None <-> is_text entry.2 = false.
Proof. unfold chart_row. by destruct entry.2. Qed.

(** X16. For a [feature_impacts] object with at least one entry,
    [FeatureChart] draws one row per entry, in the order of the entries,
    each with the colours and the width of its tag, provided every tag is a
    string; and it throws, instead of drawing, exactly when some tag is not
    a string. *)
Theorem FeatureChart_rows :
  (forall rows : list (string * string),
      rows <> [] ->
      FeatureChart (Some (JObj (prod_map id JStr <$> rows)))
      = Shown (row_of <$> rows))
  /\ (forall fields : list (string * json),
         FeatureChart (Some (JObj fields)) = Thrown
         <-> Exists (fun entry => is_text entry.2 = false) fields).
Proof.
  split.
  - intros rows Hrows. unfold FeatureChart.
    destruct rows as [|row rows]; [done|].
    rewrite fmap_cons.
    cbn [truthy json_ToBoolean negb no_keys entries].
    rewrite <- fmap_cons. by rewrite chart_rows_of_texts.
  - intros fields. unfold FeatureChart.
    destruct fields as [|entry fields].
    + simpl. split; [done|]. intros H. inversion H.
    + cbn [truthy json_ToBoolean negb no_keys entries].
      destruct (mapM chart_row (entry :: fields)) as [bars|] eqn:E.
      * split; [done|]. intros H.
        assert (Hnone : mapM chart_row (entry :: fields) = None).
        { apply mapM_None_2. eapply Exists_impl; [exact H|].
          intros x Hx. by apply chart_row_None. }
        congruence.
      * split; [|done]. intros _. apply mapM_None_1 in E.
        eapply Exists_impl; [exact E|]. intros x Hx. by apply chart_row_None.
Qed.

Lemma FeatureChart_rows_witness :
  FeatureChart
    (Some (JObj [("attendance_percent", JStr "negative");
                 ("midterm_score", JStr "strong_positive")]))
  = Shown [row_of ("attendance_percent", "negative");
           row_of ("midterm_score", "strong_positive")]
  /\ FeatureChart (Some (JObj [("attendance_percent", JNum 3%Z)])) = Thrown.
Proof.
  split.
  - apply (proj1 FeatureChart_rows
             [("attendance_percent", "negative");
              ("midterm_score", "strong_positive")]).
    discriminate.
  - apply (proj2 FeatureChart_rows). apply Exists_cons_hd. reflexivity.
Defined.

Lemma items_of_texts (texts : list string) :
  mapM recommendation_item (JStr <$> texts) = Some texts.
Proof.
  apply mapM_Some_2. induction texts as [|t texts IH]; simpl; by constructor.
Qed.

Lemma recommendation_item_None (rec : json) :
  recommendation_item rec = None <-> is_text rec = false.
Proof. by destruct rec. Qed.

(** X17. For a [recommendations] array with at least one item,
    [RecommendationList] lists the items, all of them and in their order,
    provided every item is a string; it throws, instead of listing, exactly
    when some item is not a string; and a truthy value that is not an array
    and does not report a length of zero makes it throw as well. *)
Theorem RecommendationList_items :
  (forall texts : list string,
      texts <> [] ->
      RecommendationList (Some (JArr (JStr <$> texts))) = Shown texts)
  /\ (forall items : list json,
         RecommendationList (Some (JArr items)) = Thrown
         <-> Exists (fun item => is_text item = false) items)
  /\ (forall v : json,
         truthy v = true -> length_is_zero v = false ->
         (forall items, v <> JArr items) ->
         RecommendationList (Some v) = Thrown).
Proof.
  split; [|split].
  - intros texts Htexts. unfold RecommendationList.
    destruct texts as [|t texts]; [done|].
    rewrite fmap_cons.
    cbn [truthy json_ToBoolean negb length_is_zero].
    rewrite <- fmap_cons. by rewrite items_of_texts.
  - intros items. unfold RecommendationList.
    destruct items as [|item items].
    + simpl. split; [done|]. intros H. inversion H.
    + cbn [truthy json_ToBoolean negb length_is_zero].
      destruct (mapM recommendation_item (item :: items)) as [texts|] eqn:E.
      * split; [done|]. intros H.
        assert (Hnone : mapM recommendation_item (item :: items) = None).
        { apply mapM_None_2. eapply Exists_impl; [exact H|].
          intros x Hx. by apply recommendation_item_None. }
        congruence.
      * split; [|done]. intros _. apply mapM_None_1 in E.
        eapply Exists_impl; [exact E|].
        intros x Hx. by apply recommendation_item_None.
  - intros v Ht Hz Harr. unfold RecommendationList. rewrite Ht, Hz. simpl.
    destruct v; try done. by destruct (Harr items).
Qed.

Lemma RecommendationList_items_witness :
  RecommendationList (Some (JArr [JStr "Attend more classes"; JStr "Great work"]))
  = Shown ["Attend more classes"; "Great work"]
  /\ RecommendationList (Some (JArr [JStr "Great work"; JNull])) = Thrown
  /\ RecommendationList (Some (JStr "Great work")) = Thrown.
Proof.
  destruct RecommendationList_items as (Hshown & Hthrown & Hother).
  split; [|split].
  - apply (Hshown ["Attend more classes"; "Great work"]). discriminate.
  - apply Hthrown. apply Exists_cons_tl, Exists_cons_hd. reflexivity.
  - apply Hother; [reflexivity | reflexivity | discriminate].
Defined.

(** ** The display names *)

Ltac each_character c :=
  destruct c as [[] [] [] [] [] [] [] []]; vm_compute; try done.

Lemma toUpperCase_char_separator (c : ascii) :
  Ascii.eqb c "_" || Ascii.eqb c " " = false ->
  Ascii.eqb (toUpperCase_char c) "_" || Ascii.eqb (toUpperCase_char c) " "
  = false.
Proof. each_character c. Qed.

Lemma toUpperCase_char_idempotent (c : ascii) :
  toUpperCase_char (toUpperCase_char c) = toUpperCase_char c.
Proof. each_character c. Qed.

Lemma toUpperCase_char_ascii (c : ascii) :
  is_ascii_char (toUpperCase_char c) = is_ascii_char c.
Proof. each_character c. Qed.

Lemma replaced_is_space (c : ascii) :
  Ascii.eqb (if Ascii.eqb c "_" then " "%char else c) " "
  = Ascii.eqb c "_" || Ascii.eqb c " ".
Proof. by destruct (Ascii.eqb c "_"). Qed.

Lemma join_cons_char (c : ascii) (word : string) (words : list string) :
  join (String c word :: words) = String c (join (word :: words)).
Proof. by destruct words. Qed.

Lemma join_cons_empty (words : list string) :
  words <> [] -> join (EmptyString :: words) = String " " (join words).
Proof. by destruct words. Qed.

(** Splitting at the spaces, capitalising the pieces and joining them again
    is the pass [titled] makes over the characters. *)
Lemma split_capitalize_join (s : string) :
  exists word words,
    split (replace_underscores s) = word :: words
    /\ join (capitalize word :: (capitalize <$> words)) = titled true s
    /\ join (word :: (capitalize <$> words)) = titled false s.
Proof.
  induction s as [|c s (word & words & Hsplit & Htrue & Hfalse)].
  - by exists EmptyString, [].
  - cbn [replace_underscores split titled].
    rewrite replaced_is_space.
    destruct (Ascii.eqb c "_" || Ascii.eqb c " ") eqn:Esep.
    + exists EmptyString, (word :: words). rewrite Hsplit.
      split; [done|]. rewrite fmap_cons.
      change (capitalize EmptyString) with EmptyString.
      rewrite join_cons_empty by done. by rewrite Htrue.
    + rewrite Hsplit.
      assert (Hc : (if Ascii.eqb c "_" then " "%char else c) = c).
      { apply orb_false_iff in Esep as [-> _]. done. }
      rewrite Hc. exists (String c word), words.
      split; [done|]. cbn [capitalize].
      by rewrite !join_cons_char, Hfalse.
Qed.

Lemma formatFeatureName_titled (name : string) :
  formatFeatureName name = titled true name.
Proof.
  unfold formatFeatureName.
  destruct (split_capitalize_join name) as (word & words & -> & H & _).
  by rewrite fmap_cons.
Qed.

Lemma titled_length (opening : bool) (s : string) :
  String.length (titled opening s) = String.length s.
Proof.
  revert opening. induction s as [|c s IH]; intros opening; [done|].
  cbn [titled]. destruct (Ascii.eqb c "_" || Ascii.eqb c " ");
    cbn [String.length]; by rewrite IH.
Qed.

Lemma titled_ascii (opening : bool) (s : string) :
  is_ascii (titled opening s) = is_ascii s.
Proof.
  revert opening. induction s as [|c s IH]; intros opening; [done|].
  cbn [titled]. destruct (Ascii.eqb c "_" || Ascii.eqb c " ") eqn:E;
    cbn [is_ascii]; rewrite IH.
  - f_equal. revert E. each_character c.
  - destruct opening; by rewrite ?toUpperCase_char_ascii.
Qed.

Lemma titled_no_underscore (opening : bool) (s : string) :
  occurs "_" (titled opening s) = false.
Proof.
  revert opening. induction s as [|c s IH]; intros opening; [done|].
  cbn [titled]. destruct (Ascii.eqb c "_" || Ascii.eqb c " ") eqn:E;
    cbn [occurs]; rewrite IH, orb_false_r; [done|].
  destruct opening.
  - apply toUpperCase_char_separator in E.
    apply orb_false_iff in E as [E _]. by rewrite Ascii.eqb_sym.
  - apply orb_false_iff in E as [E _]. by rewrite Ascii.eqb_sym.
Qed.

Lemma titled_idempotent (opening : bool) (s : string) :
  titled opening (titled opening s) = titled opening s.
Proof.
  revert opening. induction s as [|c s IH]; intros opening; [done|].
  cbn [titled]. destruct (Ascii.eqb c "_" || Ascii.eqb c " ") eqn:E.
  - cbn [titled]. change (Ascii.eqb " " "_" || Ascii.eqb " " " ") with true.
    cbn iota. by rewrite IH.
  - cbn [titled]. destruct opening.
    + rewrite (toUpperCase_char_separator _ E).
      by rewrite toUpperCase_char_idempotent, IH.
    + by rewrite E, IH.
Qed.

Lemma titled_replace_underscores (opening : bool) (s : string) :
  titled opening (replace_underscores s) = titled opening s.
Proof.
  revert opening. induction s as [|c s IH]; intros opening; [done|].
  cbn [titled replace_underscores].
  destruct (Ascii.eqb c "_") eqn:E; cbn [orb].
  - change (Ascii.eqb " " "_" || Ascii.eqb " " " ") with true.
    cbn iota. by rewrite IH.
  - rewrite E. cbn [orb]. destruct (Ascii.eqb c " "); by rewrite IH.
Qed.

(** X18. On ASCII text, [formatFeatureName] and [formatImpactLabel] keep
    the length of the text and stay within ASCII, leave no underscore, and
    their split, map and join amount to one pass over the characters:
    underscores and spaces become spaces and the first character of each
    word is upper-cased. *)
Theorem display_name_shape (name : string) :
  is_ascii name = true ->
  String.length (formatFeatureName name) = String.length name
  /\ is_ascii (formatFeatureName name) = true
  /\ occurs "_" (formatFeatureName name) = false
  /\ formatFeatureName name = titled true name
  /\ formatImpactLabel name = formatFeatureName name.
Proof.
  intros Hascii. rewrite formatFeatureName_titled.
  split; [apply titled_length|].
  split; [by rewrite titled_ascii|].
  split; [apply titled_no_underscore|].
  split; [done|]. unfold formatImpactLabel.
  by rewrite <- formatFeatureName_titled.
Qed.

Lemma display_name_shape_witness :
  formatFeatureName "hours_on_platform" = titled true "hours_on_platform"
  /\ String.length (formatFeatureName "hours_on_platform") = 17.
Proof.
  destruct (display_name_shape "hours_on_platform") as (Hlen & _ & _ & Heq & _).
  - reflexivity.
  - split; [exact Heq | exact Hlen].
Defined.

(** X19. On ASCII text, formatting a display name again changes nothing,
    and a name written with spaces formats like the name written with
    underscores: the display name does not determine the key it came
    from. *)
Theorem display_name_idempotent (name : string) :
  is_ascii name = true ->
  formatFeatureName (formatFeatureName name) = formatFeatureName name
  /\ formatFeatureName (replace_underscores name) = formatFeatureName name.
Proof.
  intros _. rewrite !formatFeatureName_titled.
  split; [apply titled_idempotent | apply titled_replace_underscores].
Qed.

Lemma display_name_idempotent_witness :
  formatFeatureName (formatFeatureName "previous_gpa")
  = formatFeatureName "previous_gpa"
  /\ formatFeatureName "previous gpa" = formatFeatureName "previous_gpa".
Proof.
  destruct (display_name_idempotent "previous_gpa") as [Hidem Hsame];
    [reflexivity|].
  split; [exact Hidem | exact Hsame].
Defined.

(** ** The tables of the claims, key by key *)

(** X20. [getGradeDescription] on any string: a grade gets its
    description, the name of a member of [Object.prototype] gets that
    member, and every other string gets "Grade Predicted". *)
Theorem getGradeDescription_cases (grade : string) :
  (forall g : Grade,
      grade = grade_name g ->
      getGradeDescription grade = Own (grade_description g))
  /\ (grade ∈ Object_prototype -> getGradeDescription grade = Inherited grade)
  /\ ((forall g : Grade, grade <> grade_name g) ->
      grade ∉ Object_prototype ->
      getGradeDescription grade = Own "Grade Predicted").
Proof.
  split; [|split].
  - intros g ->. apply getGradeDescription_grades.
  - apply getGradeDescription_inherited.
  - apply getGradeDescription_other.
Qed.

Lemma getGradeDescription_cases_witness :
  getGradeDescription "D" = Own "Needs Improvement"
  /\ getGradeDescription "valueOf" = Inherited "valueOf".
Proof.
  split.
  - apply (proj1 (getGradeDescription_cases "D") D_). reflexivity.
  - apply (proj1 (proj2 (getGradeDescription_cases "valueOf"))).
    unfold Object_prototype. do 6 apply list_elem_of_further.
    apply list_elem_of_here.
Defined.

(** X21. [getRiskConfig] on any string: low, medium and high get their own
    configuration, the name of a member of [Object.prototype] gets that
    member, and every other string gets the configuration of medium. *)
Theorem getRiskConfig_cases (riskLevel : string) :
  (riskLevel ∈ ["low"; "medium"; "high"] ->
   exists config, configs !! riskLevel = Some config
                  /\ getRiskConfig riskLevel = Own config)
  /\ (riskLevel ∈ Object_prototype ->
      getRiskConfig riskLevel = Inherited riskLevel)
  /\ (riskLevel ∉ ["low"; "medium"; "high"] ->
      riskLevel ∉ Object_prototype ->
      getRiskConfig riskLevel
      = Own (mkRisk "AlertCircle" "text-yellow-600"
               "bg-yellow-50 border-yellow-200" "bg-yellow-500"
               "Medium Risk" "Monitor student progress")).
Proof.
  split; [|split].
  - intros H.
    repeat (apply elem_of_cons in H as [->|H]);
      [ eexists; split; vm_compute; reflexivity ..
      | by apply elem_of_nil in H ].
  - apply getRiskConfig_inherited.
  - intros Hl Hk. by rewrite getRiskConfig_other.
Qed.

Lemma getRiskConfig_cases_witness :
  exists config, configs !! "high" = Some config
                 /\ getRiskConfig "high" = Own config.
Proof.
  apply (proj1 (getRiskConfig_cases "high")).
  do 2 apply list_elem_of_further. apply list_elem_of_here.
Defined.

(** X22. [getImpactWidth] on any string: a known tag gets its width, the
    name of a member of [Object.prototype] gets that member, and every
    other string gets 40. *)
Theorem getImpactWidth_cases (impact_tag : string) :
  (forall t : ImpactTag,
      impact_tag = tag_name t -> getImpactWidth impact_tag = Own (tag_width t))
  /\ (impact_tag ∈ Object_prototype ->
      getImpactWidth impact_tag = Inherited impact_tag)
  /\ ((forall t : ImpactTag, impact_tag <> tag_name t) ->
      impact_tag ∉ Object_prototype ->
      getImpactWidth impact_tag = Own 40%Z).
Proof.
  split; [|split].
  - intros t ->. apply getImpactWidth_tags.
  - apply getImpactWidth_inherited.
  - apply getImpactWidth_other.
Qed.

Lemma getImpactWidth_cases_witness :
  getImpactWidth "strong_negative" = Own 100%Z
  /\ getImpactWidth "toString" = Inherited "toString".
Proof.
  split.
  - apply (proj1 (getImpactWidth_cases "strong_negative") strong_negative).
    reflexivity.
  - apply (proj1 (proj2 (getImpactWidth_cases "toString"))).
    unfold Object_prototype. do 5 apply list_elem_of_further.
    apply list_elem_of_here.
Defined.
